(** * check_temperature.py: a shallow embedding and its verified properties

    The script samples the CPU package temperature from the text printed by
    [sensors], keeps a short history of observations in a JSON file and
    sends a push notification when the average over the last [WINDOW_SIZE]
    observations exceeds [THRESHOLD].

    The embedding follows the Python source function by function.  Python
    values are a small inductive type, Python floats are IEEE 754 binary64
    numbers (the Standard Library's [spec_float] at precision 53), Python
    strings are lists of code points, exceptions are an explicit result
    type, and everything the script does to the outside world (standard
    streams, the history file, the notification service, list objects on
    the heap) is threaded through a state record. *)

From Stdlib Require Import String Ascii.
From Stdlib Require Import ZArith List Bool Lia.
From Stdlib Require Import SpecFloat.
Import ListNotations.
Local Open Scope Z_scope.
Set Warnings "-register-all".

(** ** Python strings: sequences of Unicode code points *)

Definition codepoint := Z.
Definition str := list codepoint.

(** An ASCII literal as a Python string. *)
Definition lit (s : string) : str :=
  map (fun a => Z.of_N (N_of_ascii a)) (list_ascii_of_string s).
Arguments lit s%_string.

Fixpoint str_eqb (a b : str) : bool :=
  match a, b with
  | [], [] => true
  | x :: a', y :: b' => (x =? y) && str_eqb a' b'
  | _, _ => false
  end.

Fixpoint startswith (p s : str) : bool :=
  match p, s with
  | [], _ => true
  | x :: p', y :: s' => (x =? y) && startswith p' s'
  | _ :: _, [] => false
  end.

(** [sub in s] *)
Fixpoint contains (sub s : str) : bool :=
  startswith sub s ||
  match s with
  | [] => false
  | _ :: s' => contains sub s'
  end.

(** The characters [str.splitlines] treats as line boundaries:
    LF, VT, FF, CR, FS, GS, RS, NEL, LS and PS. *)
Definition is_linebreak (c : codepoint) : bool :=
  ((10 <=? c) && (c <=? 13)) || ((28 <=? c) && (c <=? 30)) ||
  (c =? 133) || (c =? 8232) || (c =? 8233).

(** [s.splitlines()]: [cur] holds the characters of the line being read,
    most recent first.  A final line with no characters is not a line. *)
Fixpoint splitlines_from (cur : str) (s : str) : list str :=
  match s with
  | [] => match cur with [] => [] | _ => [rev cur] end
  | c :: rest =>
      if is_linebreak c then
        match rest with
        | c2 :: rest' =>
            if (c =? 13) && (c2 =? 10)
            then rev cur :: splitlines_from [] rest'
            else rev cur :: splitlines_from [] rest
        | [] => [rev cur]
        end
      else splitlines_from (c :: cur) rest
  end.

Definition splitlines (s : str) : list str := splitlines_from [] s.

(** ** Python floats: IEEE 754 binary64 *)

Definition float := spec_float.

Definition prec : Z := 53.
Definition emax : Z := 1024.

Definition float_add : float -> float -> float := SFadd prec emax.
Definition float_div : float -> float -> float := SFdiv prec emax.
(** [a < b]; false when either side is a NaN. *)
Definition float_lt : float -> float -> bool := SFltb.
(** [a > b] *)
Definition float_gt (a b : float) : bool := float_lt b a.

Definition is_zero (f : float) : bool :=
  match f with S754_zero _ => true | _ => false end.

Definition is_infinite (f : float) : bool :=
  match f with S754_infinity _ => true | _ => false end.

(** The quotient [a / b] of two integers, [b] not zero, rounded once to
    the nearest binary64 number (ties to even); an infinity when the
    quotient is too large. *)
Definition round_quotient (a b : Z) : float :=
  let neg := xorb (a <? 0) (b <? 0) in
  if a =? 0 then S754_zero neg
  else
    let '(q, e, l) := SFdiv_core_binary prec emax (Z.abs a) 0 (Z.abs b) 0 in
    binary_round_aux prec emax neg q e l.

(** [float(n)] for an integer: exact when [n] fits, rounded otherwise. *)
Definition round_int (n : Z) : float := binary_normalize prec emax n 0 false.

(** ** Exceptions and results *)

(** The messages of the two [RuntimeError]s that [run_sensors] raises. *)
Inductive sensor_error :=
| NotInstalled                              (* `sensors` command not found ... *)
| ExitedWith (returncode : Z) (err : str).  (* `sensors` command failed with code ... *)

Inductive exn :=
| FileNotFoundError
| CalledProcessError (returncode : Z) (err : str)
| RuntimeError (msg : sensor_error)
| OSError
| JSONDecodeError
| ConnectionError
| ValueError
| AttributeError
| KeyError
| TypeError
| OverflowError
| ZeroDivisionError
| PermissionError
| UnicodeDecodeError
| UnicodeEncodeError
| InvalidHeader.

Inductive result (A : Type) :=
| Ok (a : A)
| Raise (e : exn).
Arguments Ok {A} a.
Arguments Raise {A} e.

Definition rbind {A B} (r : result A) (k : A -> result B) : result B :=
  match r with
  | Ok a => k a
  | Raise e => Raise e
  end.

(** ** Python values *)

(** What [json.load] can produce and what the script itself builds.  A
    [dict] keeps its items in insertion order, as [json.dump] writes them;
    lookup takes the first item with the key. *)
Inductive pyval :=
| PNone
| PBool (b : bool)
| PInt (n : Z)
| PFloat (f : float)
| PStr (s : str)
| PList (items : list pyval)
| PDict (fields : list (str * pyval)).

Fixpoint lookup (key : str) (fields : list (str * pyval)) : option pyval :=
  match fields with
  | [] => None
  | (k, v) :: rest => if str_eqb k key then Some v else lookup key rest
  end.

(** [e.get(key)]: only a dict has the method. *)
Definition py_get (e : pyval) (key : str) : result pyval :=
  match e with
  | PDict fields =>
      match lookup key fields with
      | Some v => Ok v
      | None => Ok PNone
      end
  | _ => Raise AttributeError
  end.

(** [e[key]] for a string key. *)
Definition py_getitem (e : pyval) (key : str) : result pyval :=
  match e with
  | PDict fields =>
      match lookup key fields with
      | Some v => Ok v
      | None => Raise KeyError
      end
  | _ => Raise TypeError
  end.

(** [isinstance(v, (int, float))]; [bool] is a subclass of [int]. *)
Definition is_int_or_float (v : pyval) : bool :=
  match v with
  | PBool _ | PInt _ | PFloat _ => true
  | _ => false
  end.

(** ** Python arithmetic on [int] and [float] *)

(** [float(n)]: raises when [n] is too large for a float. *)
Definition int_to_float (n : Z) : result float :=
  let f := round_int n in
  if is_infinite f then Raise OverflowError else Ok f.

Definition as_int (v : pyval) : option Z :=
  match v with
  | PBool b => Some (Z.b2z b)
  | PInt n => Some n
  | _ => None
  end.

(** [a + b] *)
Definition py_add (a b : pyval) : result pyval :=
  match a, b with
  | PFloat x, PFloat y => Ok (PFloat (float_add x y))
  | PFloat x, _ =>
      match as_int b with
      | Some n => rbind (int_to_float n) (fun y => Ok (PFloat (float_add x y)))
      | None => Raise TypeError
      end
  | _, PFloat y =>
      match as_int a with
      | Some n => rbind (int_to_float n) (fun x => Ok (PFloat (float_add x y)))
      | None => Raise TypeError
      end
  | _, _ =>
      match as_int a, as_int b with
      | Some m, Some n => Ok (PInt (m + n))
      | _, _ => Raise TypeError
      end
  end.

(** [sum(items)]: the items are added to [0] from left to right, each
    addition rounded.  (From version 3.12 on CPython adds floats with a
    correction term; the two agree whenever the partial sums are exact,
    as they are for whole numbers of degrees.) *)
Fixpoint sum_from (acc : pyval) (items : list pyval) : result pyval :=
  match items with
  | [] => Ok acc
  | x :: rest => rbind (py_add acc x) (fun acc' => sum_from acc' rest)
  end.

Definition py_sum (items : list pyval) : result pyval := sum_from (PInt 0) items.

(** [a / n] for a number [a] and an [int] [n]: true division. *)
Definition py_truediv (a : pyval) (n : Z) : result float :=
  match a with
  | PFloat x =>
      rbind (int_to_float n) (fun y =>
        if is_zero y then Raise ZeroDivisionError else Ok (float_div x y))
  | _ =>
      match as_int a with
      | Some m =>
          if n =? 0 then Raise ZeroDivisionError
          else
            let f := round_quotient m n in
            if is_infinite f then Raise OverflowError else Ok f
      | None => Raise TypeError
      end
  end.

(** [sum(temps) / len(temps)] *)
Definition mean (temps : list pyval) : result float :=
  rbind (py_sum temps) (fun total => py_truediv total (Z.of_nat (length temps))).

(** ** Decimal digits *)

(** The code points whose decimal value is zero (Unicode 14.0, category
    Nd); each starts a run of ten digits, zero to nine.  Both the pattern
    class [\d] and [float] accept all of them. *)
Definition decimal_zeros : list codepoint :=
  [ 48; 1632; 1776; 1984; 2406; 2534; 2662; 2790; 2918; 3046; 3174;
    3302; 3430; 3558; 3664; 3792; 3872; 4160; 4240; 6112; 6160; 6470;
    6608; 6784; 6800; 6992; 7088; 7232; 7248; 42528; 43216; 43264;
    43472; 43504; 43600; 44016; 65296; 66720; 68912; 69734; 69872;
    69942; 70096; 70384; 70736; 70864; 71248; 71360; 71472; 71904;
    72016; 72784; 73040; 73120; 92768; 92864; 93008; 120782; 120792;
    120802; 120812; 120822; 123200; 123632; 125264; 130032 ].

Definition digit_value (c : codepoint) : option Z :=
  match find (fun z => (z <=? c) && (c <? z + 10)) decimal_zeros with
  | Some z => Some (c - z)
  | None => None
  end.

Definition is_digit (c : codepoint) : bool :=
  match digit_value c with Some _ => true | None => false end.

(** The longest prefix of digits, and what follows it. *)
Fixpoint span_digits (s : str) : str * str :=
  match s with
  | c :: rest =>
      if is_digit c then let (d, r) := span_digits rest in (c :: d, r)
      else ([], s)
  | [] => ([], [])
  end.

Fixpoint decimal_from (acc : Z) (digits : str) : Z :=
  match digits with
  | [] => acc
  | c :: rest =>
      match digit_value c with
      | Some d => decimal_from (10 * acc + d) rest
      | None => acc
      end
  end.

(** [float(text)] for text of the shape digits, or digits [.] digits: the
    nearest float to the decimal number, an infinity when it is too large.
    That is all the pattern below can capture.  [float] reads more than
    that (signs, exponents, blanks around the number); such text is
    outside this model and is answered with [ValueError]. *)
Definition py_float (text : str) : result float :=
  let (ip, r) := span_digits text in
  match ip, r with
  | [], _ => Raise ValueError
  | _, [] => Ok (round_quotient (decimal_from 0 ip) 1)
  | _, c :: r' =>
      let (fp, r'') := span_digits r' in
      match fp, r'' with
      | _ :: _, [] =>
          if c =? 46
          then Ok (round_quotient (decimal_from 0 (ip ++ fp))
                                  (10 ^ Z.of_nat (length fp)))
          else Raise ValueError
      | _, _ => Raise ValueError
      end
  end.

(** ** The world the script runs in *)

(** What [subprocess.run] does with [sensors]: there is no such command,
    the command ends with a status that is not zero, it ends with status
    zero and has printed [out], or [subprocess.run] raises something else
    ([PermissionError] for a file that may not be executed,
    [UnicodeDecodeError] for output that is not text, ...). *)
Inductive sensors_outcome :=
| CommandMissing
| CommandFails (returncode : Z) (err : str)
| CommandPrints (out : str)
| CommandRaises (e : exn).

(** A file that exists either holds the text of a JSON value or cannot be
    read as one (unreadable, not UTF-8, not JSON). *)
Inductive file_content :=
| Corrupt
| Json (v : pyval).

(** What an attempt to write a file does. *)
Inductive disk_outcome :=
| Written
| OpenFails        (* the file cannot be opened for writing; it is left as it was *)
| DumpFails.       (* the write stops half way; the file is left cut short *)

(** Text the script formats; the numbers are kept as numbers. *)
Inductive message :=
| MonitoringFailed (e : sensor_error)      (* Temperature monitoring failed: ... *)
| NoTemperatures                           (* No temperatures found in sensors output. *)
| Overheating (avg : float) (checks : Z).  (* Server overheating! Average: ... *)

Record notification := {
  n_message : message;
  n_title : str;
  n_priority : str;
  n_tags : str
}.

(** Lines printed to standard error. *)
Inductive diagnostic :=
| DiagSensors (e : sensor_error)
| DiagNoTemperatures
| DiagMissingTopic
| DiagNotification (e : exn)
| DiagHistoryFile (e : exn).

(** Lines printed to standard output. *)
Inductive status_line :=
| CpuTemp (current threshold : float) (over : bool)
| AlertConditionMet (intervals : Z).

(** References to list objects. *)
Definition ref := nat.

Record world := {
  (* what the script finds *)
  sensors_cmd : sensors_outcome;
  clock : str;                        (* the time of day, in ISO format *)
  ntfy_topic : option str;            (* NTFY_CPU_TEMPERATURES_TOPIC *)
  network_up : bool;                  (* the request reaches ntfy.sh *)
  disk : disk_outcome;
  (* what the script changes *)
  files : list (str * file_content);
  heap : list (list pyval);           (* the list objects, by reference *)
  stderr : list diagnostic;
  stdout : list status_line;
  posted : list notification;         (* requests accepted by ntfy.sh *)
  saves : list (str * list pyval)     (* calls of save_history, for the record *)
}.

Definition set_files (f : list (str * file_content)) (w : world) : world :=
  {| sensors_cmd := sensors_cmd w; clock := clock w; ntfy_topic := ntfy_topic w;
     network_up := network_up w; disk := disk w;
     files := f; heap := heap w; stderr := stderr w; stdout := stdout w;
     posted := posted w; saves := saves w |}.

Definition set_heap (h : list (list pyval)) (w : world) : world :=
  {| sensors_cmd := sensors_cmd w; clock := clock w; ntfy_topic := ntfy_topic w;
     network_up := network_up w; disk := disk w;
     files := files w; heap := h; stderr := stderr w; stdout := stdout w;
     posted := posted w; saves := saves w |}.

Definition set_stderr (l : list diagnostic) (w : world) : world :=
  {| sensors_cmd := sensors_cmd w; clock := clock w; ntfy_topic := ntfy_topic w;
     network_up := network_up w; disk := disk w;
     files := files w; heap := heap w; stderr := l; stdout := stdout w;
     posted := posted w; saves := saves w |}.

Definition set_stdout (l : list status_line) (w : world) : world :=
  {| sensors_cmd := sensors_cmd w; clock := clock w; ntfy_topic := ntfy_topic w;
     network_up := network_up w; disk := disk w;
     files := files w; heap := heap w; stderr := stderr w; stdout := l;
     posted := posted w; saves := saves w |}.

Definition set_posted (l : list notification) (w : world) : world :=
  {| sensors_cmd := sensors_cmd w; clock := clock w; ntfy_topic := ntfy_topic w;
     network_up := network_up w; disk := disk w;
     files := files w; heap := heap w; stderr := stderr w; stdout := stdout w;
     posted := l; saves := saves w |}.

Definition set_saves (l : list (str * list pyval)) (w : world) : world :=
  {| sensors_cmd := sensors_cmd w; clock := clock w; ntfy_topic := ntfy_topic w;
     network_up := network_up w; disk := disk w;
     files := files w; heap := heap w; stderr := stderr w; stdout := stdout w;
     posted := posted w; saves := l |}.

Definition set_disk (d : disk_outcome) (w : world) : world :=
  {| sensors_cmd := sensors_cmd w; clock := clock w; ntfy_topic := ntfy_topic w;
     network_up := network_up w; disk := d;
     files := files w; heap := heap w; stderr := stderr w; stdout := stdout w;
     posted := posted w; saves := saves w |}.

(** ** Header values of a request

    A header value is checked twice on its way out.  [requests] matches it
    against the pattern [^\S[^\r\n]*$|^$] when it prepares the request and
    raises [InvalidHeader] when it does not match: a value must not start
    with white space nor hold a line break.  [http.client] writes the
    headers once the connection is there: a value with a character outside
    Latin-1 raises [UnicodeEncodeError], and one that ends a line raises
    [ValueError].  The body, a [str], goes out encoded as UTF-8, whatever
    its characters. *)

(** The class [\s] of a pattern on [str], which is [str.isspace]. *)
Definition is_space (c : codepoint) : bool :=
  ((9 <=? c) && (c <=? 13)) || ((28 <=? c) && (c <=? 32)) ||
  (c =? 133) || (c =? 160) || (c =? 5760) ||
  ((8192 <=? c) && (c <=? 8202)) || (c =? 8232) || (c =? 8233) ||
  (c =? 8239) || (c =? 8287) || (c =? 12288).

(** [[^\r\n]*$] on all of [s]: no line break, but for a line feed that
    ends [s] (the [$] of a pattern also matches just before it). *)
Fixpoint no_break_to_end (s : str) : bool :=
  match s with
  | [] => true
  | c :: rest =>
      match rest with
      | [] => negb (c =? 13)
      | _ :: _ => negb (c =? 10) && negb (c =? 13) && no_break_to_end rest
      end
  end.

(** The check of [requests]: [^\S[^\r\n]*$|^$] matches the value. *)
Definition header_accepted (v : str) : bool :=
  match v with
  | [] => true
  | c :: rest => (negb (is_space c) && no_break_to_end rest) || str_eqb v [10]
  end.

(** The check of [http.client]: [\n(?![ \t])|\r(?![ \t\n])] is found in
    the value. *)
Fixpoint is_illegal_header_value (v : str) : bool :=
  match v with
  | [] => false
  | c :: rest =>
      let next_is (l : list codepoint) :=
        match rest with
        | c' :: _ => existsb (Z.eqb c') l
        | [] => false
        end in
      ((c =? 10) && negb (next_is [32; 9])) ||
      ((c =? 13) && negb (next_is [32; 9; 10])) ||
      is_illegal_header_value rest
  end.

(** What writing one header raises, if anything. *)
Definition header_write_error (v : str) : option exn :=
  if negb (forallb (fun c => c <? 256) v) then Some UnicodeEncodeError
  else if is_illegal_header_value v then Some ValueError
  else None.

Fixpoint first_write_error (values : list str) : option exn :=
  match values with
  | [] => None
  | v :: rest =>
      match header_write_error v with
      | Some e => Some e
      | None => first_write_error rest
      end
  end.

(** What [requests.post] raises for the notification, if anything; [up]
    tells whether the service can be reached. *)
Definition post_failure (n : notification) (up : bool) : option exn :=
  let values := [n_title n; n_priority n; n_tags n] in
  if negb (forallb header_accepted values) then Some InvalidHeader
  else if negb up then Some ConnectionError
  else first_write_error values.

(** ** Computations: a world goes in, a result and a world come out *)

Definition M (A : Type) : Type := world -> result A * world.

Definition ret {A} (a : A) : M A := fun w => (Ok a, w).

Definition bind {A B} (c : M A) (k : A -> M B) : M B :=
  fun w =>
    match c w with
    | (Ok a, w') => k a w'
    | (Raise e, w') => (Raise e, w')
    end.

Definition raise {A} (e : exn) : M A := fun w => (Raise e, w).

(** [try: c  except ...: handler] *)
Definition try_except {A} (c : M A) (handler : exn -> M A) : M A :=
  fun w =>
    match c w with
    | (Ok a, w') => (Ok a, w')
    | (Raise e, w') => handler e w'
    end.

Definition lift {A} (r : result A) : M A := fun w => (r, w).

Declare Scope py_scope.
Delimit Scope py_scope with py.
Notation "x <- c ;; k" := (bind c (fun x => k))
  (at level 61, c at next level, right associativity) : py_scope.
Notation "c ;;; k" := (bind c (fun _ => k))
  (at level 61, right associativity) : py_scope.
Local Open Scope py_scope.

(** *** Files *)

Fixpoint fs_lookup (path : str) (fs : list (str * file_content)) : option file_content :=
  match fs with
  | [] => None
  | (p, c) :: rest => if str_eqb p path then Some c else fs_lookup path rest
  end.

Fixpoint fs_store (path : str) (c : file_content) (fs : list (str * file_content))
  : list (str * file_content) :=
  match fs with
  | [] => [(path, c)]
  | (p, c') :: rest =>
      if str_eqb p path then (p, c) :: rest else (p, c') :: fs_store path c rest
  end.

(** [os.path.exists(path)] *)
Definition path_exists (path : str) : M bool :=
  fun w => (Ok (match fs_lookup path (files w) with Some _ => true | None => false end), w).

(** [with open(path, "r") as f: json.load(f)] *)
Definition json_load (path : str) : M pyval :=
  fun w =>
    match fs_lookup path (files w) with
    | None => (Raise FileNotFoundError, w)
    | Some Corrupt => (Raise JSONDecodeError, w)
    | Some (Json v) => (Ok v, w)
    end.

(** [with open(path, "w") as f: json.dump(v, f, indent=2)] *)
Definition json_dump (path : str) (v : pyval) : M unit :=
  fun w =>
    match disk w with
    | Written => (Ok tt, set_files (fs_store path (Json v) (files w)) w)
    | OpenFails => (Raise OSError, w)
    | DumpFails => (Raise OSError, set_files (fs_store path Corrupt (files w)) w)
    end.

(** *** Standard streams, the environment, the network *)

Definition print_stderr (d : diagnostic) : M unit :=
  fun w => (Ok tt, set_stderr (stderr w ++ [d]) w).

Definition print_stdout (l : status_line) : M unit :=
  fun w => (Ok tt, set_stdout (stdout w ++ [l]) w).

(** [os.getenv("NTFY_CPU_TEMPERATURES_TOPIC")] *)
Definition getenv_topic : M (option str) := fun w => (Ok (ntfy_topic w), w).

(** [requests.post("https://ntfy.sh/" + topic, data=..., headers=...,
    timeout=10)]: the request is posted unless the headers are refused or
    the service cannot be reached. *)
Definition requests_post (n : notification) : M unit :=
  fun w =>
    match post_failure n (network_up w) with
    | Some e => (Raise e, w)
    | None => (Ok tt, set_posted (posted w ++ [n]) w)
    end.

(** [datetime.now(timezone.utc).isoformat()] *)
Definition utcnow_isoformat : M str := fun w => (Ok (clock w), w).

(** [subprocess.run(["sensors"], check=True, capture_output=True, text=True).stdout] *)
Definition subprocess_run_sensors : M str :=
  fun w =>
    match sensors_cmd w with
    | CommandMissing => (Raise FileNotFoundError, w)
    | CommandFails c e => (Raise (CalledProcessError c e), w)
    | CommandPrints out => (Ok out, w)
    | CommandRaises e => (Raise e, w)
    end.

(** *** List objects *)

(** A new list object holding [items]. *)
Definition new_list (items : list pyval) : M ref :=
  fun w => (Ok (length (heap w)), set_heap (heap w ++ [items]) w).

(** The items of the list object at [r]. *)
Definition deref (r : ref) (w : world) : list pyval := nth r (heap w) [].

Definition read_list (r : ref) : M (list pyval) := fun w => (Ok (deref r w), w).

Fixpoint replace_nth {A} (n : nat) (a : A) (l : list A) : list A :=
  match n, l with
  | O, _ :: rest => a :: rest
  | S n', x :: rest => x :: replace_nth n' a rest
  | _, [] => []
  end.

(** [r.append(v)]: the list object itself changes. *)
Definition list_append (r : ref) (v : pyval) : M unit :=
  fun w => (Ok tt, set_heap (replace_nth r (deref r w ++ [v]) (heap w)) w).

(** [len(r)] *)
Definition len (r : ref) : M Z := fun w => (Ok (Z.of_nat (length (deref r w))), w).

(** The items of [l[start:]]: a negative [start] counts from the end, and
    a start outside the list is moved to its nearest end. *)
Definition slice_from (start : Z) (l : list pyval) : list pyval :=
  let n := Z.of_nat (length l) in
  let first := if start <? 0 then Z.max 0 (n + start) else Z.min start n in
  skipn (Z.to_nat first) l.

(** [r[start:]]: a new list object. *)
Definition list_slice_from (r : ref) (start : Z) : M ref :=
  items <- read_list r ;; new_list (slice_from start items).

(** * The script *)

Definition THRESHOLD : float := Eval vm_compute in round_int 90.
Definition WINDOW_SIZE : Z := 3.
(** The history lies beside the script. *)
Definition HISTORY_FILE : str := lit "check_temperature_history.json".

(** ** run_sensors *)

Definition run_sensors : M str :=
  try_except subprocess_run_sensors
    (fun exc =>
       match exc with
       | FileNotFoundError => raise (RuntimeError NotInstalled)
       | CalledProcessError returncode err => raise (RuntimeError (ExitedWith returncode err))
       | _ => raise exc
       end).

(** ** parse_cpu_temperatures *)

Definition PACKAGE_LABEL : str := lit "Package id 0:".

(** The three characters that end the pattern in the source, after the
    number: U+00C2, U+00B0 and the letter C. *)
Definition PATTERN_TAIL : str := [194; 176; 67].

(** [\d+] at the start of [s], the way the pattern matcher tries it: the
    longest run of digits first, then shorter ones, until the rest of the
    pattern, [k], matches what is left.  [k] is given the digits taken and
    the text after them. *)
Fixpoint digits_plus {A} (s : str) (k : str -> str -> option A) : option A :=
  match s with
  | c :: rest =>
      if is_digit c then
        match digits_plus rest (fun d r => k (c :: d) r) with
        | Some a => Some a
        | None => k [c] rest
        end
      else None
  | [] => None
  end.

(** The end of the pattern at the start of [s]; [group1] is what the
    group has captured. *)
Definition tail_here (s : str) (group1 : str) : option str :=
  if startswith PATTERN_TAIL s then Some group1 else None.

(** The pattern [\+(\d+(?:\.\d+)?)] followed by the tail, matched at the
    start of [s]; the result is group 1.  The optional part is tried
    first, and left out when the rest does not match with it. *)
Definition match_at (s : str) : option str :=
  match s with
  | c :: r =>
      if c =? 43 then
        digits_plus r (fun d r1 =>
          let with_fraction :=
            match r1 with
            | c' :: r2 =>
                if c' =? 46
                then digits_plus r2 (fun f r3 => tail_here r3 (d ++ c' :: f))
                else None
            | [] => None
            end in
          match with_fraction with
          | Some g => Some g
          | None => tail_here r1 d
          end)
      else None
  | [] => None
  end.

(** [re.search(pattern, line)]: the leftmost match; the result is group 1. *)
Fixpoint re_search (line : str) : option str :=
  match match_at line with
  | Some g => Some g
  | None =>
      match line with
      | [] => None
      | _ :: rest => re_search rest
      end
  end.

(** The loop over the lines. *)
Fixpoint scan_lines (lines : list str) : list float :=
  match lines with
  | [] => []
  | line :: rest =>
      if contains PACKAGE_LABEL line then
        match re_search line with
        | Some group1 =>
            match py_float group1 with
            | Ok f => [f]
            | Raise _ => []
            end
        | None => []
        end
      else scan_lines rest
  end.

Definition parse_cpu_temperatures (sensors_output : str) : list float :=
  scan_lines (splitlines sensors_output).

(** ** load_history *)

Definition load_history (path : str) : M ref :=
  present <- path_exists path ;;
  if negb present then new_list []
  else
    try_except
      (data <- json_load path ;;
       match data with
       | PList items => new_list items
       | _ => new_list []
       end)
      (fun _ => new_list []).

(** ** save_history *)

(** Book-keeping for the proofs, not a step of the script: the world
    remembers what [save_history] was asked to save. *)
Definition record_save (path : str) (items : list pyval) : M unit :=
  fun w => (Ok tt, set_saves (saves w ++ [(path, items)]) w).

Definition save_history (path : str) (history : ref) : M unit :=
  items <- read_list history ;;
  record_save path items ;;;
  try_except
    (json_dump path (PList items))
    (fun exc => print_stderr (DiagHistoryFile exc)).

(** ** send_notification *)

Definition send_notification (msg : message) (title priority tags : str) : M unit :=
  try_except
    (topic <- getenv_topic ;;
     match topic with
     | None | Some [] => print_stderr DiagMissingTopic
     | Some _ =>
         requests_post {| n_message := msg; n_title := title;
                          n_priority := priority; n_tags := tags |}
     end)
    (fun e => print_stderr (DiagNotification e)).

(** ** create_alert *)

Definition create_alert (avg_temp : float) (history : ref) : M unit :=
  checks <- len history ;;
  send_notification (Overheating avg_temp checks)
    (lit "Home Server Temperature Alert") (lit "urgent") (lit "warning").

(** ** check_and_alert *)

Definition TEMPERATURE : str := lit "temperature".

(** [[e["temperature"] for e in window
      if isinstance(e.get("temperature"), (int, float))]] *)
Fixpoint numeric_temperatures (window : list pyval) : result (list pyval) :=
  match window with
  | [] => Ok []
  | e :: rest =>
      rbind (py_get e TEMPERATURE) (fun t =>
        if is_int_or_float t then
          rbind (py_getitem e TEMPERATURE) (fun v =>
            rbind (numeric_temperatures rest) (fun vs => Ok (v :: vs)))
        else numeric_temperatures rest)
  end.

Definition check_and_alert (history : ref) (window_size : Z) (threshold : float) : M bool :=
  n <- len history ;;
  if n <? window_size then ret false
  else
    window <- list_slice_from history (- window_size) ;;
    entries <- read_list window ;;
    values <- lift (numeric_temperatures entries) ;;
    temps <- new_list values ;;
    m <- len temps ;;
    if m <? window_size then ret false
    else
      items <- read_list temps ;;
      avg_temp <- lift (mean items) ;;
      if float_gt avg_temp threshold then
        create_alert avg_temp window ;;; ret true
      else ret false.

(** ** main *)

Definition observation (timestamp : str) (temperature : float) (over : bool) : pyval :=
  PDict [ (lit "timestamp", PStr timestamp);
          (TEMPERATURE, PFloat temperature);
          (lit "over_threshold", PBool over);
          (lit "threshold", PFloat THRESHOLD) ].

Definition main : M Z :=
  r <- try_except
         (output <- run_sensors ;; ret (inr output))
         (fun exc =>
            match exc with
            | RuntimeError msg => ret (inl msg)
            | _ => raise exc
            end) ;;
  match r with
  | inl msg =>
      print_stderr (DiagSensors msg) ;;;
      send_notification (MonitoringFailed msg)
        (lit "Monitoring Script Error") (lit "high") (lit "x") ;;;
      ret 1
  | inr output =>
      match parse_cpu_temperatures output with
      | [] =>
          print_stderr DiagNoTemperatures ;;;
          send_notification NoTemperatures
            (lit "Monitoring Script Error") (lit "high") (lit "x") ;;;
          ret 2
      | current_temp :: _ =>
          let over := float_gt current_temp THRESHOLD in
          history <- load_history HISTORY_FILE ;;
          timestamp <- utcnow_isoformat ;;
          list_append history (observation timestamp current_temp over) ;;;
          n <- len history ;;
          history <- (if n >? WINDOW_SIZE
                      then list_slice_from history (- WINDOW_SIZE)
                      else ret history) ;;
          save_history HISTORY_FILE history ;;;
          alerted <- check_and_alert history WINDOW_SIZE THRESHOLD ;;
          print_stdout (CpuTemp current_temp THRESHOLD over) ;;;
          (if alerted then print_stdout (AlertConditionMet WINDOW_SIZE) else ret tt) ;;;
          ret 0
      end
  end.

(** [raise SystemExit(main())]: the status the process ends with.  An
    exception nobody catches ends it with status 1. *)
Definition exit_status (r : result Z) : Z :=
  match r with
  | Ok code => code
  | Raise _ => 1
  end.

(** * Vocabulary of the properties *)

Definition is_dict (e : pyval) : bool :=
  match e with PDict _ => true | _ => false end.

Definition is_list (v : pyval) : bool :=
  match v with PList _ => true | _ => false end.

(** The temperature field of a history entry, when it has one. *)
Definition temperature_of (e : pyval) : option pyval :=
  match e with
  | PDict fields => lookup TEMPERATURE fields
  | _ => None
  end.

(** The entry has a temperature and it is a number. *)
Definition numeric_entry (e : pyval) : bool :=
  match temperature_of e with
  | Some t => is_int_or_float t
  | None => false
  end.

Definition has_temperature (e t : pyval) : Prop :=
  temperature_of e = Some t /\ is_int_or_float t = true.

(** The most recent [n] entries of a history (all of it when it is shorter). *)
Definition recent (n : nat) (l : list pyval) : list pyval :=
  skipn (length l - n) l.

(** The history [load_history] returns, as a value. *)
Definition loaded (path : str) (w : world) : result (list pyval) :=
  match load_history path w with
  | (Ok r, w') => Ok (deref r w')
  | (Raise e, _) => Raise e
  end.

(** A later world in which the list objects of [w] are all still there,
    unchanged, and so are the files, the record of saves, standard output
    and the disk. *)
Definition extends (w w' : world) : Prop :=
  (exists fresh, heap w' = heap w ++ fresh) /\
  files w' = files w /\ saves w' = saves w /\ stdout w' = stdout w /\
  disk w' = disk w.

(** What [send_notification] does to the world. *)
Definition notify_effect (n : notification) (w : world) : world :=
  match ntfy_topic w with
  | None | Some [] => set_stderr (stderr w ++ [DiagMissingTopic]) w
  | Some _ =>
      match post_failure n (network_up w) with
      | None => set_posted (posted w ++ [n]) w
      | Some e => set_stderr (stderr w ++ [DiagNotification e]) w
      end
  end.

(** The notification [create_alert] sends. *)
Definition alert (avg : float) (checks : Z) : notification :=
  {| n_message := Overheating avg checks;
     n_title := lit "Home Server Temperature Alert";
     n_priority := lit "urgent"; n_tags := lit "warning" |}.

(** What [save_history] does to the world. *)
Definition save_effect (path : str) (items : list pyval) (w : world) : world :=
  let w1 := set_saves (saves w ++ [(path, items)]) w in
  match disk w with
  | Written => set_files (fs_store path (Json (PList items)) (files w)) w1
  | OpenFails => set_stderr (stderr w ++ [DiagHistoryFile OSError]) w1
  | DumpFails =>
      set_stderr (stderr w ++ [DiagHistoryFile OSError])
        (set_files (fs_store path Corrupt (files w)) w1)
  end.

(** The files after [save_history] has tried to write [items]. *)
Definition files_after (d : disk_outcome) (path : str) (items : list pyval)
    (fs : list (str * file_content)) : list (str * file_content) :=
  match d with
  | Written => fs_store path (Json (PList items)) fs
  | OpenFails => fs
  | DumpFails => fs_store path Corrupt fs
  end.

(** The list a file gives to [load_history]. *)
Definition list_in (c : option file_content) : list pyval :=
  match c with
  | Some (Json (PList items)) => items
  | _ => []
  end.

(** The history [main] saves after a reading of [temp]. *)
Definition new_history (w : world) (temp : float) : list pyval :=
  recent (Z.to_nat WINDOW_SIZE)
    (list_in (fs_lookup HISTORY_FILE (files w))
       ++ [observation (clock w) temp (float_gt temp THRESHOLD)]).

(** What [check_and_alert] returns, read off the items of the history. *)
Definition verdict (items : list pyval) (window_size : Z) (threshold : float)
  : result bool :=
  if Z.of_nat (length items) <? window_size then Ok false
  else
    match numeric_temperatures (slice_from (- window_size) items) with
    | Raise e => Raise e
    | Ok values =>
        if Z.of_nat (length values) <? window_size then Ok false
        else
          match mean values with
          | Raise e => Raise e
          | Ok avg => Ok (float_gt avg threshold)
          end
    end.

(** The last steps of [main], from the save on. *)
Definition finish (current_temp : float) (history : ref) : M Z :=
  save_history HISTORY_FILE history ;;;
  alerted <- check_and_alert history WINDOW_SIZE THRESHOLD ;;
  print_stdout (CpuTemp current_temp THRESHOLD (float_gt current_temp THRESHOLD)) ;;;
  (if alerted then print_stdout (AlertConditionMet WINDOW_SIZE) else ret tt) ;;;
  ret 0.

(** The world after one more run of the script. *)
Definition next_run (w : world) : world := snd (main w).

(** ** Worlds and values for the examples *)

(** A quiet machine: the topic is set, the network and the disk work. *)
Definition machine (cmd : sensors_outcome) (fs : list (str * file_content))
    (objects : list (list pyval)) : world :=
  {| sensors_cmd := cmd; clock := lit "2025-06-01T12:00:00+00:00";
     ntfy_topic := Some (lit "cpu-temperatures");
     network_up := true; disk := Written;
     files := fs; heap := objects;
     stderr := []; stdout := []; posted := []; saves := [] |}.

(** An observation of [t] degrees, [t] a whole number. *)
Definition reading (t : Z) : pyval :=
  observation (lit "2025-06-01T11:55:00+00:00") (round_int t)
    (float_gt (round_int t) THRESHOLD).

(** The degree sign, U+00B0. *)
Definition DEGREE : codepoint := 176.

(** The line of [sensors] in the specification's example. *)
Definition package_line : str :=
  lit "Package id 0: +75.0" ++ [DEGREE] ++ lit "C (high = +90.0" ++ [DEGREE]
    ++ lit "C, crit = +100.0" ++ [DEGREE] ++ lit "C)".

(** The same line as the pattern wants it: U+00C2 before each degree sign. *)
Definition package_line_c2 : str :=
  lit "Package id 0: +75.0" ++ [194; DEGREE] ++ lit "C (high = +90.0"
    ++ [194; DEGREE] ++ lit "C, crit = +100.0" ++ [194; DEGREE] ++ lit "C)".

(** A reading of 95 degrees in the shape the pattern matches. *)
Definition hot_output : str :=
  lit "Package id 0:  +95.0" ++ [194; DEGREE] ++ lit "C" ++ [10].

(** ** Vocabulary of the further properties *)

(** The notification [send_notification] builds from its arguments. *)
Definition notice (msg : message) (title priority tags : str) : notification :=
  {| n_message := msg; n_title := title; n_priority := priority; n_tags := tags |}.

(** There is a topic to post to. *)
Definition topic_set (w : world) : Prop :=
  exists c t, ntfy_topic w = Some (c :: t).

(** Two entries are dicts with the same temperature field (or both
    without one); their other fields may differ. *)
Definition same_temperature (e e' : pyval) : Prop :=
  is_dict e = true /\ is_dict e' = true /\ temperature_of e = temperature_of e'.

(** What [main] reports when [sensors] is missing, fails or prints no
    temperature: the line for standard error and the message of the
    notification. *)
Definition failure_of (w : world) : option (diagnostic * message) :=
  match sensors_cmd w with
  | CommandMissing => Some (DiagSensors NotInstalled, MonitoringFailed NotInstalled)
  | CommandFails c e =>
      Some (DiagSensors (ExitedWith c e), MonitoringFailed (ExitedWith c e))
  | CommandPrints out =>
      match parse_cpu_temperatures out with
      | [] => Some (DiagNoTemperatures, NoTemperatures)
      | _ :: _ => None
      end
  | CommandRaises _ => None
  end.

(** The number a run of decimal digits and a second run after the full
    stop stand for, as a float. *)
Definition decimal_float (int_part frac_part : str) : float :=
  round_quotient (decimal_from 0 (int_part ++ frac_part))
                 (10 ^ Z.of_nat (length frac_part)).


(** The text does not go on with a digit. *)
Definition digits_end (r : str) : Prop :=
  match r with
  | [] => True
  | c :: _ => is_digit c = false
  end.

(** Two worlds with the same surroundings: what [sensors] does, the
    clock, the topic, the network and the disk. *)
Definition same_setting (w w' : world) : Prop :=
  sensors_cmd w' = sensors_cmd w /\ clock w' = clock w /\
  ntfy_topic w' = ntfy_topic w /\ network_up w' = network_up w /\
  disk w' = disk w.

(** The status line of a run that read [temp]. *)
Definition status_of (temp : float) : status_line :=
  CpuTemp temp THRESHOLD (float_gt temp THRESHOLD).

(** A world with another topic and another state of the network;
    nothing else differs. *)
Definition with_ntfy (topic : option str) (up : bool) (w : world) : world :=
  {| sensors_cmd := sensors_cmd w; clock := clock w; ntfy_topic := topic;
     network_up := up; disk := disk w;
     files := files w; heap := heap w; stderr := stderr w; stdout := stdout w;
     posted := posted w; saves := saves w |}.

(** ** The mean, in the specification's words *)



(** The mean of integers: the sum is exact and the quotient is rounded
    once. *)
Definition int_mean (zs : list Z) : float :=
  round_quotient (fold_left Z.add zs 0) (Z.of_nat (length zs)).

(** ** Header values that can be sent *)


(** * Properties *)

(** ** List objects *)

Section ListObjects.
Variable w : world.

Lemma deref_new_list (items : list pyval) :
  deref (length (heap w)) (set_heap (heap w ++ [items]) w) = items.
Proof. unfold deref; simpl. apply nth_middle. Qed.

Lemma extends_refl : extends w w.
Proof.
  split; [exists []; now rewrite app_nil_r | repeat split].
Qed.

Lemma extends_new (items : list pyval) :
  extends w (set_heap (heap w ++ [items]) w).
Proof.
  split; [now exists [items] | repeat split].
Qed.

Lemma extends_notify (n : notification) : extends w (notify_effect n w).
Proof.
  unfold notify_effect.
  destruct (ntfy_topic w) as [[|c t]|]; [| destruct (post_failure _ _) |];
    (split; [exists []; simpl; now rewrite app_nil_r | repeat split]).
Qed.

Lemma extends_deref (w' : world) (r : ref) :
  extends w w' -> (r < length (heap w))%nat -> deref r w' = deref r w.
Proof.
  intros ((fresh & H) & _) Hr. unfold deref. rewrite H. now apply app_nth1.
Qed.
End ListObjects.

Lemma extends_trans w1 w2 w3 : extends w1 w2 -> extends w2 w3 -> extends w1 w3.
Proof.
  intros ((f1 & H1) & A1 & B1 & C1 & D1) ((f2 & H2) & A2 & B2 & C2 & D2).
  split; [exists (f1 ++ f2); rewrite H2, H1; apply eq_sym, app_assoc|].
  repeat split; congruence.
Qed.

Lemma replace_nth_last {A} (l : list A) (a b : A) :
  replace_nth (length l) b (l ++ [a]) = l ++ [b].
Proof. induction l; simpl; [|rewrite IHl]; reflexivity. Qed.

(** ** Slices *)

Lemma slice_from_window (older window : list pyval) :
  window <> [] ->
  slice_from (- Z.of_nat (length window)) (older ++ window) = window.
Proof.
  intros Hne. unfold slice_from.
  assert (0 < Z.of_nat (length window)) by (destruct window; [congruence | simpl; lia]).
  replace (- Z.of_nat (length window) <? 0) with true by (symmetry; apply Z.ltb_lt; lia).
  rewrite length_app, Nat2Z.inj_add.
  replace (Z.max 0 _) with (Z.of_nat (length older)) by lia.
  rewrite Nat2Z.id, skipn_app, Nat.sub_diag, skipn_all. reflexivity.
Qed.

Lemma recent_slice (n : Z) (l : list pyval) :
  0 < n ->
  (if Z.of_nat (length l) >? n then slice_from (- n) l else l)
  = recent (Z.to_nat n) l.
Proof.
  intros Hn. unfold recent, slice_from.
  destruct (Z.of_nat (length l) >? n) eqn:E.
  - apply Z.gtb_lt in E.
    replace (- n <? 0) with true by (symmetry; apply Z.ltb_lt; lia).
    f_equal. lia.
  - rewrite Z.gtb_ltb in E. apply Z.ltb_ge in E.
    replace (length l - Z.to_nat n)%nat with 0%nat by lia. reflexivity.
Qed.

Lemma length_recent n l : (length (recent n l) <= n)%nat.
Proof. unfold recent. rewrite length_skipn. lia. Qed.

Lemma length_recent_full n l : (n <= length l)%nat -> length (recent n l) = n.
Proof. unfold recent. rewrite length_skipn. lia. Qed.

Lemma recent_suffix n l : exists dropped, l = dropped ++ recent n l.
Proof.
  exists (firstn (length l - n) l). unfold recent. now rewrite firstn_skipn.
Qed.

(** ** Files *)

Lemma str_eqb_refl s : str_eqb s s = true.
Proof. induction s; simpl; [|rewrite Z.eqb_refl]; auto. Qed.

Lemma fs_lookup_store path c fs : fs_lookup path (fs_store path c fs) = Some c.
Proof.
  induction fs as [|[p c'] fs IH]; simpl.
  - now rewrite str_eqb_refl.
  - destruct (str_eqb p path) eqn:E; simpl; rewrite E; auto.
Qed.

(** ** One function at a time *)

Lemma run_sensors_run w :
  run_sensors w =
  match sensors_cmd w with
  | CommandMissing => (Raise (RuntimeError NotInstalled), w)
  | CommandFails c e => (Raise (RuntimeError (ExitedWith c e)), w)
  | CommandPrints out => (Ok out, w)
  | CommandRaises e =>
      (match e with
       | FileNotFoundError => Raise (RuntimeError NotInstalled)
       | CalledProcessError c err => Raise (RuntimeError (ExitedWith c err))
       | _ => Raise e
       end, w)
  end.
Proof.
  unfold run_sensors, try_except, subprocess_run_sensors, raise.
  destruct (sensors_cmd w) as [| | |e]; try reflexivity.
  destruct e; reflexivity.
Qed.

Lemma send_notification_run msg title priority tags w :
  send_notification msg title priority tags w =
  (Ok tt, notify_effect {| n_message := msg; n_title := title;
                           n_priority := priority; n_tags := tags |} w).
Proof.
  unfold send_notification, notify_effect, try_except, bind, getenv_topic,
    requests_post, print_stderr.
  destruct (ntfy_topic w) as [[|c t]|]; simpl; try reflexivity.
  destruct (post_failure _ _); reflexivity.
Qed.

Lemma notify_effect_files n w : files (notify_effect n w) = files w.
Proof.
  unfold notify_effect.
  destruct (ntfy_topic w) as [[|c t]|]; [|destruct (post_failure _ _)|];
    reflexivity.
Qed.

Lemma create_alert_run avg r w :
  create_alert avg r w =
  (Ok tt, notify_effect (alert avg (Z.of_nat (length (deref r w)))) w).
Proof.
  unfold create_alert, bind, len. simpl. apply send_notification_run.
Qed.

Lemma load_history_run path w :
  load_history path w =
  (Ok (length (heap w)),
   set_heap (heap w ++ [list_in (fs_lookup path (files w))]) w).
Proof.
  unfold load_history, bind, path_exists.
  destruct (fs_lookup path (files w)) as [c|] eqn:E; simpl; [|reflexivity].
  unfold try_except, bind, json_load. rewrite E.
  destruct c as [|v]; [reflexivity | destruct v; reflexivity].
Qed.

Lemma loaded_run path w : loaded path w = Ok (list_in (fs_lookup path (files w))).
Proof.
  unfold loaded. rewrite load_history_run. now rewrite deref_new_list.
Qed.

Lemma save_history_run path history w :
  save_history path history w = (Ok tt, save_effect path (deref history w) w).
Proof.
  cbv beta iota zeta delta
    [save_history bind read_list record_save try_except json_dump print_stderr
     save_effect].
  simpl. destruct (disk w); reflexivity.
Qed.

Lemma numeric_temperatures_all window temps :
  Forall2 has_temperature window temps ->
  numeric_temperatures window = Ok temps.
Proof.
  induction 1 as [|e t window temps [Ht Hn] _ IH]; [reflexivity|].
  destruct e; try discriminate. simpl in Ht.
  simpl. rewrite Ht. simpl. rewrite Hn, IH. reflexivity.
Qed.


(** [check_and_alert], step by step: [w1] has the window, [w2] the
    temperatures as well. *)
Lemma check_and_alert_run history window_size threshold w :
  check_and_alert history window_size threshold w =
  let items := deref history w in
  if Z.of_nat (length items) <? window_size then (Ok false, w)
  else
    let window := slice_from (- window_size) items in
    let w1 := set_heap (heap w ++ [window]) w in
    match numeric_temperatures window with
    | Raise e => (Raise e, w1)
    | Ok values =>
        let w2 := set_heap (heap w1 ++ [values]) w1 in
        if Z.of_nat (length values) <? window_size then (Ok false, w2)
        else
          match mean values with
          | Raise e => (Raise e, w2)
          | Ok avg =>
              if float_gt avg threshold
              then (Ok true,
                    notify_effect (alert avg (Z.of_nat (length window))) w2)
              else (Ok false, w2)
          end
    end.
Proof.
  cbv beta iota zeta delta
    [check_and_alert bind len ret list_slice_from read_list new_list lift].
  destruct (Z.of_nat (length (deref history w)) <? window_size); [reflexivity|].
  set (window := slice_from (- window_size) (deref history w)).
  set (w1 := set_heap (heap w ++ [window]) w).
  replace (deref (length (heap w)) w1) with window
    by (symmetry; apply deref_new_list).
  destruct (numeric_temperatures window) as [values|e]; [|reflexivity].
  set (w2 := set_heap (heap w1 ++ [values]) w1).
  replace (deref (length (heap w1)) w2) with values
    by (symmetry; apply deref_new_list).
  destruct (Z.of_nat (length values) <? window_size); [reflexivity|].
  cbv beta.
  replace (deref (length (heap w1)) w2) with values
    by (symmetry; apply deref_new_list).
  destruct (mean values) as [avg|e]; [|reflexivity].
  destruct (float_gt avg threshold); [|reflexivity].
  rewrite create_alert_run.
  replace (deref (length (heap w)) w2) with window; [reflexivity|].
  transitivity (deref (length (heap w)) w1).
  - symmetry; apply deref_new_list.
  - symmetry. apply extends_deref; [apply extends_new|].
    unfold w1; simpl. rewrite length_app; simpl; lia.
Qed.

Lemma check_and_alert_verdict history window_size threshold w :
  fst (check_and_alert history window_size threshold w)
  = verdict (deref history w) window_size threshold.
Proof.
  rewrite check_and_alert_run. unfold verdict. cbv zeta.
  destruct (_ <? _); [reflexivity|].
  destruct (numeric_temperatures _) as [values|e]; [|reflexivity].
  destruct (_ <? _); [reflexivity|].
  destruct (mean values) as [avg|e]; [|reflexivity].
  destruct (float_gt avg threshold); reflexivity.
Qed.

Lemma check_and_alert_extends history window_size threshold w :
  extends w (snd (check_and_alert history window_size threshold w)).
Proof.
  rewrite check_and_alert_run. cbv zeta.
  destruct (_ <? _); [apply extends_refl|].
  set (w1 := set_heap _ w).
  assert (E1 : extends w w1) by apply extends_new.
  destruct (numeric_temperatures _) as [values|e]; [|exact E1].
  set (w2 := set_heap _ w1).
  assert (E2 : extends w w2) by (eapply extends_trans; [exact E1 | apply extends_new]).
  destruct (_ <? _); [exact E2|].
  destruct (mean values) as [avg|e]; [|exact E2].
  destruct (float_gt avg threshold); [|exact E2].
  eapply extends_trans; [exact E2 | apply extends_notify].
Qed.

(** ** main, step by step *)

Lemma main_sensors_fail w :
  sensors_cmd w = CommandMissing \/
  (exists returncode err, sensors_cmd w = CommandFails returncode err) ->
  fst (main w) = Ok 1.
Proof.
  intros H. unfold main, bind at 1, try_except, bind at 1.
  rewrite run_sensors_run.
  destruct H as [-> | (c & e & ->)];
    unfold bind, ret, print_stderr; rewrite send_notification_run; reflexivity.
Qed.

(** When [subprocess.run] raises something else, [main] lets it go by,
    unless it is one of the exceptions the two handlers take. *)
Lemma main_sensors_raise w e :
  sensors_cmd w = CommandRaises e ->
  exists w',
    main w =
      (match e with
       | FileNotFoundError | CalledProcessError _ _ | RuntimeError _ => Ok 1
       | _ => Raise e
       end, w') /\
    files w' = files w.
Proof.
  intros Hs. unfold main, bind at 1, try_except, bind at 1.
  rewrite run_sensors_run, Hs.
  destruct e; try (exists w; split; reflexivity);
    unfold bind, ret, print_stderr; rewrite send_notification_run;
    (eexists; split; [reflexivity | now rewrite notify_effect_files]).
Qed.

Lemma main_no_reading w out :
  sensors_cmd w = CommandPrints out ->
  parse_cpu_temperatures out = [] ->
  fst (main w) = Ok 2.
Proof.
  intros Hs Hp. unfold main, bind at 1, try_except, bind at 1.
  rewrite run_sensors_run, Hs. cbv beta iota delta [ret]. rewrite Hp.
  unfold bind, ret, print_stderr; rewrite send_notification_run; reflexivity.
Qed.

Lemma main_steps w out temp rest :
  sensors_cmd w = CommandPrints out ->
  parse_cpu_temperatures out = temp :: rest ->
  exists history w3,
    extends w w3 /\
    deref history w3 = new_history w temp /\
    main w = finish temp history w3.
Proof.
  intros Hs Hp.
  pose (full := list_in (fs_lookup HISTORY_FILE (files w))
                  ++ [observation (clock w) temp (float_gt temp THRESHOLD)]).
  pose (w2 := set_heap (heap w ++ [full]) w).
  assert (E2 : extends w w2) by apply extends_new.
  assert (D2 : deref (length (heap w)) w2 = full) by apply deref_new_list.
  assert (Hmain : main w =
    (history <- (if Z.of_nat (length full) >? WINDOW_SIZE
                 then list_slice_from (length (heap w)) (- WINDOW_SIZE)
                 else ret (length (heap w))) ;;
     finish temp history) w2).
  { unfold main, bind at 1, try_except, bind at 1.
    rewrite run_sensors_run, Hs. cbv beta iota delta [ret]. rewrite Hp.
    cbv beta iota zeta.
    unfold bind at 1. rewrite load_history_run.
    unfold bind at 1, utcnow_isoformat. cbn [clock set_heap].
    unfold bind at 1, list_append. rewrite deref_new_list.
    cbn [heap set_heap]. rewrite replace_nth_last.
    unfold bind at 1, len.
    change (set_heap _ (set_heap _ w)) with w2.
    rewrite D2. reflexivity. }
  rewrite Hmain. unfold bind at 1, new_history. fold full.
  rewrite <- recent_slice by reflexivity.
  destruct (_ >? _).
  - unfold list_slice_from, bind at 1, read_list, new_list. rewrite D2.
    eexists _, _. split; [|split; [|reflexivity]].
    + eapply extends_trans; [exact E2 | apply extends_new].
    + apply deref_new_list.
  - exists (length (heap w)), w2. repeat split; try apply E2; auto.
Qed.

Lemma finish_run temp history w :
  finish temp history w =
  let w4 := save_effect HISTORY_FILE (deref history w) w in
  match check_and_alert history WINDOW_SIZE THRESHOLD w4 with
  | (Ok alerted, w5) =>
      (Ok 0,
       set_stdout
         (stdout w5 ++
          CpuTemp temp THRESHOLD (float_gt temp THRESHOLD)
          :: (if alerted then [AlertConditionMet WINDOW_SIZE] else []))
         w5)
  | (Raise e, w5) => (Raise e, w5)
  end.
Proof.
  unfold finish, bind at 1. rewrite save_history_run.
  unfold bind at 1. cbv zeta.
  destruct (check_and_alert _ _ _ _) as [[alerted|e] w5]; [|reflexivity].
  unfold bind, print_stdout, ret.
  destruct alerted; cbn; [rewrite <- app_assoc|]; reflexivity.
Qed.

(** After a reading: what [main] returns, what it asked to save, and the
    files it leaves. *)
Lemma main_reading w out temp rest :
  sensors_cmd w = CommandPrints out ->
  parse_cpu_temperatures out = temp :: rest ->
  fst (main w) =
    match verdict (new_history w temp) WINDOW_SIZE THRESHOLD with
    | Ok _ => Ok 0
    | Raise e => Raise e
    end /\
  saves (snd (main w)) = saves w ++ [(HISTORY_FILE, new_history w temp)] /\
  files (snd (main w)) =
    files_after (disk w) HISTORY_FILE (new_history w temp) (files w).
Proof.
  intros Hs Hp.
  destruct (main_steps w out temp rest Hs Hp) as (history & w3 & E3 & D3 & ->).
  rewrite finish_run, D3. cbv zeta.
  set (w4 := save_effect _ _ w3).
  assert (S4 : saves w4 = saves w ++ [(HISTORY_FILE, new_history w temp)]).
  { destruct E3 as (_ & _ & S3 & _). unfold w4, save_effect.
    destruct (disk w3); simpl; now rewrite S3. }
  assert (F4 : files w4
               = files_after (disk w) HISTORY_FILE (new_history w temp) (files w)).
  { destruct E3 as (_ & F3 & _ & _ & Dk). unfold w4, save_effect, files_after.
    rewrite Dk. destruct (disk w); simpl; now rewrite ?F3. }
  assert (D4 : deref history w4 = new_history w temp).
  { rewrite <- D3. unfold w4, save_effect. destruct (disk w3); reflexivity. }
  pose proof (check_and_alert_verdict history WINDOW_SIZE THRESHOLD w4) as V.
  pose proof (check_and_alert_extends history WINDOW_SIZE THRESHOLD w4) as E5.
  rewrite D4 in V. rewrite <- V.
  destruct (check_and_alert history WINDOW_SIZE THRESHOLD w4) as [[alerted|e] w5];
    cbn [fst snd] in *; destruct E5 as (_ & F5 & S5 & _).
  - cbn. rewrite F5, S5. auto.
  - rewrite F5, S5. auto.
Qed.

(** The disk has no say in what [main] returns. *)
Lemma main_result_any_disk w d : fst (main (set_disk d w)) = fst (main w).
Proof.
  destruct (sensors_cmd w) as [|c e|out|e] eqn:Hs.
  - rewrite !main_sensors_fail; simpl; auto.
  - rewrite !main_sensors_fail; simpl; eauto.
  - destruct (parse_cpu_temperatures out) as [|temp rest] eqn:Hp.
    + rewrite (main_no_reading w out), (main_no_reading (set_disk d w) out); auto.
    + destruct (main_reading w out temp rest Hs Hp) as (-> & _).
      destruct (main_reading (set_disk d w) out temp rest Hs Hp) as (-> & _).
      reflexivity.
  - destruct (main_sensors_raise w e Hs) as (w1 & -> & _).
    destruct (main_sensors_raise (set_disk d w) e Hs) as (w2 & -> & _).
    reflexivity.
Qed.

(** ** The mean *)




(** * The claims *)





(** C2. Whatever the window size and the threshold, [check_and_alert]
    returns [False], and does nothing else, for a history with fewer
    entries than the window size. *)
Theorem check_and_alert_short_history
    (w : world) (history : ref) (window_size : Z) (threshold : float) :
  Z.of_nat (length (deref history w)) < window_size ->
  check_and_alert history window_size threshold w = (Ok false, w).
Proof.
  intros H. rewrite check_and_alert_run. cbv zeta.
  apply Z.ltb_lt in H. rewrite H. reflexivity.
Qed.

Lemma check_and_alert_short_history_example :
  let w := machine CommandMissing [] [[reading 95; reading 97]] in
  check_and_alert 0%nat 3 THRESHOLD w = (Ok false, w).
Proof.
  intros w. apply (check_and_alert_short_history w 0%nat 3 THRESHOLD).
  vm_compute. reflexivity.
Defined.

(** C3. The claim: when one of the last [window_size] entries has no
    temperature, or one that is not a number, [check_and_alert] returns
    [False].  The script does not keep it for an entry that is not a dict:
    between two readings of 100 degrees, [null] has no temperature field,
    and [check_and_alert] calls [get] on it and ends with an
    [AttributeError]; so it does when a number stands before an entry
    whose temperature is a string. *)
Theorem check_and_alert_fails_on_entry_without_fields :
  let hot := reading 100 in
  let text := PDict [(TEMPERATURE, PStr (lit "hot"))] in
  let w1 := machine CommandMissing [] [[hot; PNone; hot]] in
  let w2 := machine CommandMissing [] [[PInt 5; text; hot]] in
  numeric_entry PNone = false /\
  fst (check_and_alert 0%nat 3 THRESHOLD w1) = Raise AttributeError /\
  numeric_entry text = false /\
  fst (check_and_alert 0%nat 3 THRESHOLD w2) = Raise AttributeError.
Proof. vm_compute. repeat split. Qed.

(** C4. The claim: once [sensors] has printed a temperature that parses,
    [main] returns 0 whatever the history file holds, and the status is 1
    only when [sensors] fails.  The script does not keep it: with a
    history file that holds the JSON list [[1, 2]], the two numbers reach
    [check_and_alert], which calls [get] on them; [main] ends with an
    [AttributeError] nobody catches, and the process with status 1. *)
Theorem main_fails_on_history_of_numbers :
  let w := machine (CommandPrints hot_output)
             [(HISTORY_FILE, Json (PList [PInt 1; PInt 2]))] [] in
  parse_cpu_temperatures hot_output = [round_int 95] /\
  fst (main w) = Raise AttributeError /\
  exit_status (fst (main w)) = 1.
Proof. vm_compute. repeat split. Qed.

(** C5, as the script has it.  A history file that exists and does not
    hold a JSON list (it is not JSON, or its JSON value is something else)
    gives the empty history; one that holds a JSON list gives that list as
    it is, whatever its elements are. *)
Theorem load_history_of_existing_file
    (path : str) (w : world) (c : file_content) :
  fs_lookup path (files w) = Some c ->
  loaded path w =
  Ok (match c with
      | Json (PList items) => items
      | _ => []
      end).
Proof.
  intros H. rewrite loaded_run, H. destruct c as [|[]]; reflexivity.
Qed.

Lemma load_history_of_existing_file_example :
  loaded HISTORY_FILE
    (machine CommandMissing [(HISTORY_FILE, Json (PDict [(TEMPERATURE, PInt 7)]))] [])
  = Ok [].
Proof.
  apply (load_history_of_existing_file HISTORY_FILE
           (machine CommandMissing
              [(HISTORY_FILE, Json (PDict [(TEMPERATURE, PInt 7)]))] [])
           (Json (PDict [(TEMPERATURE, PInt 7)]))).
  reflexivity.
Defined.

(** C5 as stated fails: a history file that holds the JSON list [[1, 2]],
    none of whose elements is an observation, is not loaded as the empty
    history; the two numbers come back. *)
Lemma load_history_keeps_list_of_numbers :
  let w := machine CommandMissing
             [(HISTORY_FILE, Json (PList [PInt 1; PInt 2]))] [] in
  forallb (fun e => negb (is_dict e)) [PInt 1; PInt 2] = true /\
  loaded HISTORY_FILE w = Ok [PInt 1; PInt 2] /\
  loaded HISTORY_FILE w <> Ok [].
Proof. vm_compute. repeat split. discriminate. Qed.

(** C6. The claim: the line of the specification's example, with its
    temperature written [+75.0], a degree sign and [C], parses to 75.0.
    The script does not keep it: its pattern has U+00C2 between the number
    and the degree sign, so the line does not match and nothing is
    returned; with U+00C2 before each degree sign the same line gives
    75.0. *)
Theorem parse_misses_plain_degree_sign :
  parse_cpu_temperatures package_line = [] /\
  parse_cpu_temperatures package_line_c2 = [round_int 75].
Proof. vm_compute. split; reflexivity. Qed.

(** C7. After a reading, [main] hands [save_history] the most recent
    [WINDOW_SIZE] entries of the loaded history followed by the new
    observation: never more than [WINDOW_SIZE] entries, exactly
    [WINDOW_SIZE] when there were more, the oldest ones dropped from the
    front; and when the write goes through, that is what the history file
    holds afterwards.  (A write that fails leaves the file as it was, or
    cut short.) *)
Theorem main_saves_recent_window
    (w : world) (out : str) (temp : float) (rest : list float)
    (old : list pyval) :
  sensors_cmd w = CommandPrints out ->
  parse_cpu_temperatures out = temp :: rest ->
  loaded HISTORY_FILE w = Ok old ->
  let full := old ++ [observation (clock w) temp (float_gt temp THRESHOLD)] in
  let kept := recent (Z.to_nat WINDOW_SIZE) full in
  let w' := snd (main w) in
  saves w' = saves w ++ [(HISTORY_FILE, kept)] /\
  Z.of_nat (length kept) <= WINDOW_SIZE /\
  (exists dropped, full = dropped ++ kept) /\
  (WINDOW_SIZE < Z.of_nat (length full) -> Z.of_nat (length kept) = WINDOW_SIZE) /\
  files w' = files_after (disk w) HISTORY_FILE kept (files w) /\
  (disk w = Written ->
   fs_lookup HISTORY_FILE (files w') = Some (Json (PList kept))).
Proof.
  intros Hs Hp Hl full kept w'.
  destruct (main_reading w out temp rest Hs Hp) as (_ & Hsaves & Hfiles).
  rewrite loaded_run in Hl. injection Hl as Hl.
  assert (Hk : new_history w temp = kept) by (unfold new_history; now rewrite Hl).
  rewrite Hk in Hsaves, Hfiles.
  split; [exact Hsaves|].
  split; [pose proof (length_recent (Z.to_nat WINDOW_SIZE) full);
          unfold kept, WINDOW_SIZE in *; lia|].
  split; [apply recent_suffix|].
  split; [|split; [exact Hfiles|]].
  - intros Hlong. unfold kept. rewrite length_recent_full; unfold WINDOW_SIZE in *; lia.
  - intros Hd. unfold w'. rewrite Hfiles, Hd. apply fs_lookup_store.
Qed.

(** Four observations on file and a fifth one read: the last three are
    saved. *)
Lemma main_saves_recent_window_example :
  let old := [reading 50; reading 60; reading 70; reading 80] in
  let w := machine (CommandPrints hot_output) [(HISTORY_FILE, Json (PList old))] [] in
  let new := observation (clock w) (round_int 95) true in
  fs_lookup HISTORY_FILE (files (snd (main w)))
  = Some (Json (PList [reading 70; reading 80; new])).
Proof.
  intros old w new.
  apply (main_saves_recent_window w hot_output (round_int 95) [] old);
    vm_compute; reflexivity.
Defined.

(** C8. [load_history] never raises: it returns the empty history when
    the file does not exist, when the file is not JSON, and when the file
    holds a JSON value that is not a list. *)
Theorem load_history_never_raises (path : str) (w : world) :
  (exists r w', load_history path w = (Ok r, w')) /\
  (exists items, loaded path w = Ok items) /\
  (fs_lookup path (files w) = None -> loaded path w = Ok []) /\
  (fs_lookup path (files w) = Some Corrupt -> loaded path w = Ok []) /\
  (forall v, fs_lookup path (files w) = Some (Json v) ->
             is_list v = false -> loaded path w = Ok []).
Proof.
  rewrite load_history_run, loaded_run.
  split; [eauto|]. split; [eauto|].
  split; [intros ->; reflexivity|].
  split; [intros ->; reflexivity|].
  intros v -> Hv. destruct v; try reflexivity; discriminate.
Qed.

(** C9. A write that fails in [save_history] raises nothing: it is
    printed to standard error, and [main] returns what it returns when the
    write goes through, so the process ends with the same status. *)
Theorem save_failure_is_not_fatal
    (path : str) (history : ref) (w : world) (d : disk_outcome) :
  fst (save_history path history w) = Ok tt /\
  stderr (snd (save_history path history w))
  = stderr w ++ match disk w with
                | Written => []
                | _ => [DiagHistoryFile OSError]
                end /\
  fst (main (set_disk d w)) = fst (main (set_disk Written w)) /\
  exit_status (fst (main (set_disk d w)))
  = exit_status (fst (main (set_disk Written w))).
Proof.
  rewrite save_history_run, !main_result_any_disk. unfold save_effect.
  repeat split. destruct (disk w); simpl; rewrite ?app_nil_r; reflexivity.
Qed.

(** C10. [check_and_alert] leaves the list it is given as it was, and
    every other list object too: it only makes new ones. *)
Theorem check_and_alert_leaves_history
    (w : world) (history : ref) (window_size : Z) (threshold : float) :
  (history < length (heap w))%nat ->
  let w' := snd (check_and_alert history window_size threshold w) in
  deref history w' = deref history w /\
  forall r, (r < length (heap w))%nat -> deref r w' = deref r w.
Proof.
  intros Hh w'. subst w'.
  pose proof (check_and_alert_extends history window_size threshold w) as E.
  split; [|intros r Hr]; now apply (extends_deref _ _ _ E).
Qed.

(** Three hot readings: the alert is sent and the history is as before. *)
Lemma check_and_alert_leaves_history_example :
  let h := [reading 95; reading 96; reading 97] in
  let w := machine CommandMissing [] [h] in
  fst (check_and_alert 0%nat 3 THRESHOLD w) = Ok true /\
  deref 0%nat (snd (check_and_alert 0%nat 3 THRESHOLD w)) = h.
Proof.
  intros h w. split; [vm_compute; reflexivity|].
  exact (proj1 (check_and_alert_leaves_history w 0%nat 3 THRESHOLD (le_n 1))).
Defined.

(** * Further properties *)

(** ** The exit status *)

(** X1. When [sensors] is missing, or ends with a status that is not zero,
    [main] returns 1. *)
Theorem main_exits_1_when_sensors_fail (w : world) :
  sensors_cmd w = CommandMissing \/
  (exists returncode err, sensors_cmd w = CommandFails returncode err) ->
  fst (main w) = Ok 1 /\ exit_status (fst (main w)) = 1.
Proof.
  intros H. rewrite (main_sensors_fail w H). split; reflexivity.
Qed.

Lemma main_exits_1_when_sensors_fail_example :
  fst (main (machine (CommandFails 2 (lit "No sensors found!")) [] [])) = Ok 1 /\
  exit_status (fst (main (machine (CommandFails 2 (lit "No sensors found!")) [] []))) = 1.
Proof.
  apply (main_exits_1_when_sensors_fail
           (machine (CommandFails 2 (lit "No sensors found!")) [] [])).
  right. exists 2, (lit "No sensors found!"). reflexivity.
Defined.

(** X2. When [sensors] prints text in which no temperature is found, [main]
    returns 2. *)
Theorem main_exits_2_without_reading (w : world) (out : str) :
  sensors_cmd w = CommandPrints out ->
  parse_cpu_temperatures out = [] ->
  fst (main w) = Ok 2 /\ exit_status (fst (main w)) = 2.
Proof.
  intros Hs Hp. rewrite (main_no_reading w out Hs Hp). split; reflexivity.
Qed.

Lemma main_exits_2_without_reading_example :
  fst (main (machine (CommandPrints package_line) [] [])) = Ok 2 /\
  exit_status (fst (main (machine (CommandPrints package_line) [] []))) = 2.
Proof.
  apply (main_exits_2_without_reading
           (machine (CommandPrints package_line) [] []) package_line);
    vm_compute; reflexivity.
Defined.

(** The mean of three floats: no exception. *)
Lemma mean_three_floats (a b c : float) :
  exists avg, mean [PFloat a; PFloat b; PFloat c] = Ok avg.
Proof. eexists. reflexivity. Qed.

Lemma Forall_recent (P : pyval -> Prop) n l : Forall P l -> Forall P (recent n l).
Proof.
  intros H. destruct (recent_suffix n l) as (dropped & E).
  rewrite E in H. now apply Forall_app in H.
Qed.

(** A history of at most three entries, each a dict with a float for
    temperature, gets a verdict. *)
Lemma verdict_float_history items :
  Forall (fun e => exists t, temperature_of e = Some (PFloat t)) items ->
  (length items <= 3)%nat ->
  exists b, verdict items WINDOW_SIZE THRESHOLD = Ok b.
Proof.
  intros H Hlen.
  destruct items as [|e1 [|e2 [|e3 [|e4 items]]]];
    try (exists false; reflexivity); [|simpl in Hlen; lia].
  inversion H as [|? ? (t1 & H1) H']; subst.
  inversion H' as [|? ? (t2 & H2) H'']; subst.
  inversion H'' as [|? ? (t3 & H3) _]; subst.
  unfold verdict.
  change (slice_from (- WINDOW_SIZE) [e1; e2; e3]) with [e1; e2; e3].
  rewrite (numeric_temperatures_all [e1; e2; e3] [PFloat t1; PFloat t2; PFloat t3])
    by (repeat constructor; assumption).
  destruct (mean_three_floats t1 t2 t3) as (avg & ->).
  simpl. eauto.
Qed.

(** X3. After a reading, [main] returns 0 when every entry of the history
    file is a dict whose temperature is a float, as the entries the script
    writes are; and when there is no usable history file. *)
Theorem main_returns_0_on_float_history
    (w : world) (out : str) (temp : float) (rest : list float)
    (old : list pyval) :
  sensors_cmd w = CommandPrints out ->
  parse_cpu_temperatures out = temp :: rest ->
  loaded HISTORY_FILE w = Ok old ->
  Forall (fun e => exists t, temperature_of e = Some (PFloat t)) old ->
  fst (main w) = Ok 0 /\ exit_status (fst (main w)) = 0.
Proof.
  intros Hs Hp Hl Hold.
  destruct (main_reading w out temp rest Hs Hp) as (-> & _).
  rewrite loaded_run in Hl. injection Hl as Hl.
  destruct (verdict_float_history (new_history w temp)) as (b & ->).
  - apply Forall_recent, Forall_app. split; [now rewrite Hl|].
    constructor; [|constructor]. now exists temp.
  - apply length_recent.
  - split; reflexivity.
Qed.

Lemma main_returns_0_on_float_history_example :
  let w := machine (CommandPrints hot_output)
             [(HISTORY_FILE, Json (PList [reading 50; reading 96; reading 97]))] [] in
  fst (main w) = Ok 0 /\ exit_status (fst (main w)) = 0.
Proof.
  intros w.
  apply (main_returns_0_on_float_history w hot_output (round_int 95) []
           [reading 50; reading 96; reading 97]);
    try (vm_compute; reflexivity).
  repeat constructor; eexists; reflexivity.
Defined.

(** ** The parser *)

Lemma scan_lines_skip before rest :
  Forall (fun line => contains PACKAGE_LABEL line = false) before ->
  scan_lines (before ++ rest) = scan_lines rest.
Proof.
  induction 1 as [|line before H _ IH]; [reflexivity|].
  simpl. now rewrite H.
Qed.

(** X4. Text none of whose lines has the label gives no temperature. *)
Theorem parse_without_label (out : str) :
  Forall (fun line => contains PACKAGE_LABEL line = false) (splitlines out) ->
  parse_cpu_temperatures out = [].
Proof.
  intros H. unfold parse_cpu_temperatures.
  rewrite <- (app_nil_r (splitlines out)). now rewrite scan_lines_skip.
Qed.

Lemma parse_without_label_example :
  parse_cpu_temperatures
    (lit "Core 0:  +41.0" ++ [194; DEGREE] ++ lit "C" ++ [10]
       ++ lit "Core 1:  +43.0" ++ [194; DEGREE] ++ lit "C" ++ [10])
  = [].
Proof.
  apply parse_without_label. vm_compute. repeat constructor.
Defined.

(** X5. The first line with the label decides: the lines after it are not
    looked at, and the result has at most one temperature. *)
Theorem parse_first_labelled_line
    (out : str) (before after : list str) (line : str) :
  splitlines out = before ++ line :: after ->
  Forall (fun l => contains PACKAGE_LABEL l = false) before ->
  contains PACKAGE_LABEL line = true ->
  parse_cpu_temperatures out = scan_lines [line] /\
  (length (parse_cpu_temperatures out) <= 1)%nat.
Proof.
  intros Hsplit Hbefore Hline. unfold parse_cpu_temperatures.
  rewrite Hsplit, scan_lines_skip by assumption.
  simpl. rewrite Hline.
  destruct (re_search line) as [g|]; [destruct (py_float g)|]; simpl; auto.
Qed.

(** A labelled line with no temperature hides the labelled line after it. *)
Lemma parse_first_labelled_line_example :
  let first := lit "Package id 0:  N/A" in
  let second := lit "Package id 0:  +64.0" ++ [194; DEGREE] ++ lit "C" in
  parse_cpu_temperatures (lit "coretemp-isa-0000" ++ [10] ++ first ++ [10] ++ second)
  = [] /\
  parse_cpu_temperatures second = [round_int 64].
Proof.
  intros first second. split; [|vm_compute; reflexivity].
  refine (eq_trans
            (proj1 (parse_first_labelled_line _ [lit "coretemp-isa-0000"] [second]
                      first _ _ _)) _);
    vm_compute; try reflexivity.
  repeat constructor.
Defined.

(** ** Three hot runs in a row *)

(** From no history at all, three runs at 95 degrees: every run prints
    its status and returns 0; the third one, and only the third, sends the
    alert, for an average of 95 over 3 checks. *)
Theorem third_hot_run_alerts :
  let w0 := machine (CommandPrints hot_output) [] [] in
  let w1 := next_run w0 in
  let w2 := next_run w1 in
  let w3 := next_run w2 in
  let status := CpuTemp (round_int 95) THRESHOLD true in
  fst (main w0) = Ok 0 /\ fst (main w1) = Ok 0 /\ fst (main w2) = Ok 0 /\
  posted w2 = [] /\
  posted w3 = [alert (round_int 95) 3] /\
  stdout w3 = [status; status; status; AlertConditionMet WINDOW_SIZE].
Proof. vm_compute. repeat split. Qed.

(** * Notifications *)

Lemma notify_effect_quiet n w :
  files (notify_effect n w) = files w /\
  heap (notify_effect n w) = heap w /\
  stdout (notify_effect n w) = stdout w /\
  saves (notify_effect n w) = saves w.
Proof.
  unfold notify_effect.
  destruct (ntfy_topic w) as [[|c t]|]; [|destruct (post_failure _ _)|];
    repeat split.
Qed.

Lemma notify_effect_posts n w :
  topic_set w -> network_up w = true -> post_failure n true = None ->
  notify_effect n w = set_posted (posted w ++ [n]) w.
Proof.
  intros (c & t & Ht) Hn Hp. unfold notify_effect. now rewrite Ht, Hn, Hp.
Qed.

(** * The alert *)

(** The two ways [check_and_alert] ends: without an alert, only new list
    objects have appeared; with one, the notification for the mean and the
    length of the window has gone out as well. *)
Lemma check_and_alert_cases history window_size threshold w :
  let r := check_and_alert history window_size threshold w in
  let window := slice_from (- window_size) (deref history w) in
  (fst r <> Ok true /\ exists h, snd r = set_heap h w) \/
  (exists avg h temps,
     fst r = Ok true /\
     numeric_temperatures window = Ok temps /\
     (window_size <= Z.of_nat (length temps)) /\
     mean temps = Ok avg /\ float_gt avg threshold = true /\
     snd r = notify_effect (alert avg (Z.of_nat (length window))) (set_heap h w)).
Proof.
  cbv zeta. rewrite check_and_alert_run. cbv zeta.
  destruct (_ <? _).
  { left. split; [discriminate|]. exists (heap w). now destruct w. }
  destruct (numeric_temperatures _) as [values|e] eqn:Hv.
  2:{ left. split; [discriminate|]. eexists. reflexivity. }
  destruct (Z.of_nat (length values) <? window_size) eqn:Hlen.
  { left. split; [discriminate|]. eexists. reflexivity. }
  destruct (mean values) as [avg|e] eqn:Hm.
  2:{ left. split; [discriminate|]. eexists. reflexivity. }
  destruct (float_gt avg threshold) eqn:Hgt.
  - right. exists avg. eexists. exists values.
    apply Z.ltb_ge in Hlen. repeat split; auto.
  - left. split; [discriminate|]. eexists. reflexivity.
Qed.

(** ** What the comprehension keeps *)

Lemma numeric_temperatures_inv e rest values :
  numeric_temperatures (e :: rest) = Ok values ->
  (exists t vs, has_temperature e t /\ numeric_temperatures rest = Ok vs /\
                values = t :: vs) \/
  (numeric_entry e = false /\ is_dict e = true /\
   numeric_temperatures rest = Ok values).
Proof.
  destruct e as [| | | | | |fields]; try discriminate.
  simpl. unfold numeric_entry, has_temperature. simpl.
  destruct (lookup TEMPERATURE fields) as [t|] eqn:Hl; simpl.
  - destruct (is_int_or_float t) eqn:Hn; [|now right].
    destruct (numeric_temperatures rest) as [vs|]; [|discriminate].
    simpl. intros [= <-]. left. exists t, vs. auto.
  - now right.
Qed.

Lemma numeric_temperatures_length window values :
  numeric_temperatures window = Ok values ->
  (length values <= length window)%nat.
Proof.
  revert values. induction window as [|e rest IH]; intros values H.
  - injection H as <-. auto.
  - apply numeric_temperatures_inv in H
      as [(t & vs & _ & Hr & ->) | (_ & _ & Hr)]; apply IH in Hr; simpl; lia.
Qed.

Lemma numeric_temperatures_full window values :
  numeric_temperatures window = Ok values ->
  (length window <= length values)%nat ->
  Forall2 has_temperature window values.
Proof.
  revert values. induction window as [|e rest IH]; intros values H Hlen.
  - injection H as <-. constructor.
  - apply numeric_temperatures_inv in H
      as [(t & vs & Ht & Hr & ->) | (_ & _ & Hr)].
    + constructor; [exact Ht|]. apply IH; [exact Hr|]. simpl in Hlen. lia.
    + apply numeric_temperatures_length in Hr. simpl in Hlen. lia.
Qed.



(** A history at least as long as the window, cut where the window starts. *)
Lemma slice_from_split (n : Z) (items : list pyval) :
  0 < n -> n <= Z.of_nat (length items) ->
  exists older,
    items = older ++ slice_from (- n) items /\
    Z.of_nat (length (slice_from (- n) items)) = n.
Proof.
  intros Hpos Hle. unfold slice_from.
  replace (- n <? 0) with true by (symmetry; apply Z.ltb_lt; lia).
  exists (firstn (Z.to_nat (Z.max 0 (Z.of_nat (length items) + - n))) items).
  rewrite firstn_skipn, length_skipn. split; [reflexivity | lia].
Qed.

(** X9. An alert is never a guess: when [check_and_alert] returns [True] for
    a positive window size, the history has at least that many entries,
    every one of the last [window_size] entries has a numeric temperature,
    and the mean of those temperatures is above the threshold. *)
Theorem check_and_alert_true_means_full_window
    (w : world) (history : ref) (window_size : Z) (threshold : float) :
  0 < window_size ->
  fst (check_and_alert history window_size threshold w) = Ok true ->
  exists older window temps avg,
    deref history w = older ++ window /\
    Z.of_nat (length window) = window_size /\
    Forall2 has_temperature window temps /\
    mean temps = Ok avg /\
    float_gt avg threshold = true.
Proof.
  intros Hpos Htrue.
  assert (Hlong : window_size <= Z.of_nat (length (deref history w))).
  { rewrite check_and_alert_run in Htrue. cbv zeta in Htrue.
    destruct (_ <? _) eqn:E in Htrue; [discriminate|]. now apply Z.ltb_ge in E. }
  destruct (check_and_alert_cases history window_size threshold w)
    as [(Hno & _) | (avg & h & temps & _ & Ht & Hlen & Hm & Hgt & _)];
    [now destruct Hno|].
  destruct (slice_from_split window_size (deref history w) Hpos Hlong)
    as (older & Hsplit & Hw).
  exists older, (slice_from (- window_size) (deref history w)), temps, avg.
  repeat split; auto.
  apply numeric_temperatures_full; [exact Ht | lia].
Qed.

Lemma check_and_alert_true_means_full_window_example :
  exists older window temps avg,
    [reading 20; reading 95; reading 96; reading 94] = older ++ window /\
    Z.of_nat (length window) = 3 /\
    Forall2 has_temperature window temps /\
    mean temps = Ok avg /\
    float_gt avg THRESHOLD = true.
Proof.
  apply (check_and_alert_true_means_full_window
           (machine CommandMissing []
              [[reading 20; reading 95; reading 96; reading 94]])
           0%nat 3 THRESHOLD).
  - reflexivity.
  - vm_compute. reflexivity.
Defined.

(** ** What the verdict depends on *)

Lemma verdict_window older window threshold :
  window <> [] ->
  verdict (older ++ window) (Z.of_nat (length window)) threshold
  = verdict window (Z.of_nat (length window)) threshold.
Proof.
  intros Hne. unfold verdict.
  rewrite slice_from_window by assumption.
  pose proof (slice_from_window [] window Hne) as E.
  change ([] ++ window) with window in E. rewrite E.
  replace (Z.of_nat (length (older ++ window)) <? Z.of_nat (length window))
    with false by (symmetry; apply Z.ltb_ge; rewrite length_app; lia).
  now rewrite Z.ltb_irrefl.
Qed.

(** X10. Only the last [window_size] entries count: two histories that end
    with the same window get the same answer from [check_and_alert],
    whatever came before the window, in whatever world. *)
Theorem check_and_alert_ignores_older_entries
    (w1 w2 : world) (h1 h2 : ref) (older1 older2 window : list pyval)
    (threshold : float) :
  window <> [] ->
  deref h1 w1 = older1 ++ window ->
  deref h2 w2 = older2 ++ window ->
  fst (check_and_alert h1 (Z.of_nat (length window)) threshold w1)
  = fst (check_and_alert h2 (Z.of_nat (length window)) threshold w2).
Proof.
  intros Hne H1 H2.
  rewrite !check_and_alert_verdict, H1, H2, !verdict_window by assumption.
  reflexivity.
Qed.

(** A string and a hundred degrees before the window change nothing. *)
Lemma check_and_alert_ignores_older_entries_example :
  let window := [reading 95; reading 96; reading 94] in
  fst (check_and_alert 0%nat 3 THRESHOLD
         (machine CommandMissing [] [PStr (lit "old") :: reading 100 :: window]))
  = fst (check_and_alert 1%nat 3 THRESHOLD
           (machine CommandMissing [] [[]; window])).
Proof.
  intros window.
  apply (check_and_alert_ignores_older_entries
           (machine CommandMissing [] [PStr (lit "old") :: reading 100 :: window])
           (machine CommandMissing [] [[]; window])
           0%nat 1%nat [PStr (lit "old"); reading 100] [] window THRESHOLD).
  - discriminate.
  - reflexivity.
  - reflexivity.
Defined.

Lemma Forall2_skipn {A B} (R : A -> B -> Prop) n l l' :
  Forall2 R l l' -> Forall2 R (skipn n l) (skipn n l').
Proof.
  intros H. revert n. induction H; intros [|n]; simpl; auto.
Qed.

Lemma numeric_temperatures_same window window' :
  Forall2 same_temperature window window' ->
  numeric_temperatures window = numeric_temperatures window'.
Proof.
  induction 1 as [|e e' window window' (He & He' & Ht) _ IH]; [reflexivity|].
  destruct e; try discriminate. destruct e'; try discriminate.
  simpl in Ht. simpl. rewrite Ht, IH. reflexivity.
Qed.

(** X11. Of an entry only the temperature is read: histories whose entries
    agree on that field, whatever their timestamps, flags and recorded
    thresholds, get the same answer from [check_and_alert]. *)
Theorem check_and_alert_reads_only_temperature
    (w1 w2 : world) (h1 h2 : ref) (window_size : Z) (threshold : float) :
  Forall2 same_temperature (deref h1 w1) (deref h2 w2) ->
  fst (check_and_alert h1 window_size threshold w1)
  = fst (check_and_alert h2 window_size threshold w2).
Proof.
  intros H. rewrite !check_and_alert_verdict. unfold verdict, slice_from.
  rewrite (Forall2_length H).
  rewrite (numeric_temperatures_same _ _ (Forall2_skipn _ _ _ _ H)).
  reflexivity.
Qed.

(** Three hot readings with their flags set, and the same temperatures
    with no other field at all. *)
Lemma check_and_alert_reads_only_temperature_example :
  let bare t := PDict [(TEMPERATURE, PFloat (round_int t))] in
  fst (check_and_alert 0%nat 3 THRESHOLD
         (machine CommandMissing [] [[reading 95; reading 96; reading 94]]))
  = fst (check_and_alert 0%nat 3 THRESHOLD
           (machine CommandMissing [] [[bare 95; bare 96; bare 94]])).
Proof.
  intros bare.
  apply (check_and_alert_reads_only_temperature
           (machine CommandMissing [] [[reading 95; reading 96; reading 94]])
           (machine CommandMissing [] [[bare 95; bare 96; bare 94]])).
  repeat constructor.
Defined.

(** ** A window size of zero *)

Lemma slice_from_0 (l : list pyval) : slice_from 0 l = l.
Proof.
  unfold slice_from. simpl (0 <? 0).
  replace (Z.min 0 (Z.of_nat (length l))) with 0 by lia. reflexivity.
Qed.

(** X12. With a window size of zero both length tests pass and the slice is
    the whole history: [check_and_alert] compares the mean of all the
    temperatures with the threshold, and for an empty history the
    division raises [ZeroDivisionError]. *)
Theorem check_and_alert_zero_window
    (w : world) (history : ref) (temps : list pyval) (threshold : float) :
  Forall2 has_temperature (deref history w) temps ->
  fst (check_and_alert history 0 threshold w)
  = rbind (mean temps) (fun avg => Ok (float_gt avg threshold)) /\
  (deref history w = [] ->
   fst (check_and_alert history 0 threshold w) = Raise ZeroDivisionError).
Proof.
  intros H. rewrite check_and_alert_verdict. unfold verdict.
  change (- 0) with 0. rewrite slice_from_0.
  replace (_ <? 0) with false by (symmetry; apply Z.ltb_ge; lia).
  rewrite (numeric_temperatures_all _ _ H).
  replace (_ <? 0) with false by (symmetry; apply Z.ltb_ge; lia).
  split.
  - destruct (mean temps); reflexivity.
  - intros E. rewrite E in H. inversion H. reflexivity.
Qed.

Lemma check_and_alert_zero_window_example :
  fst (check_and_alert 0%nat 0 THRESHOLD (machine CommandMissing [] [[]]))
  = Raise ZeroDivisionError /\
  fst (check_and_alert 0%nat 0 THRESHOLD (machine CommandMissing [] [[reading 95]]))
  = Ok true.
Proof.
  split.
  - apply (check_and_alert_zero_window
             (machine CommandMissing [] [[]]) 0%nat [] THRESHOLD);
      [constructor | reflexivity].
  - refine (eq_trans
              (proj1 (check_and_alert_zero_window
                        (machine CommandMissing [] [[reading 95]]) 0%nat
                        [PFloat (round_int 95)] THRESHOLD _)) _).
    + repeat constructor.
    + vm_compute. reflexivity.
Defined.

(** * The history file *)

(** X13. Saving and loading again: when the write goes through,
    [load_history] gives back exactly the entries [save_history] was
    given; when the file cannot be opened for writing, what it gave
    before; and when the write stops half way, the empty history. *)
Theorem save_then_load (path : str) (history : ref) (w : world) :
  let w' := snd (save_history path history w) in
  match disk w with
  | Written => loaded path w' = Ok (deref history w)
  | OpenFails => loaded path w' = loaded path w
  | DumpFails => loaded path w' = Ok []
  end.
Proof.
  intros w'. subst w'. rewrite save_history_run, !loaded_run. unfold save_effect.
  destruct (disk w); cbn [snd files set_files set_stderr set_saves];
    rewrite ?fs_lookup_store; reflexivity.
Qed.

(** * main without a reading *)

Lemma main_failure_run w d m :
  failure_of w = Some (d, m) ->
  exists code,
    (code = 1 \/ code = 2) /\
    main w =
    (Ok code,
     notify_effect (notice m (lit "Monitoring Script Error") (lit "high") (lit "x"))
       (set_stderr (stderr w ++ [d]) w)).
Proof.
  unfold failure_of. intros H.
  unfold main, bind at 1, try_except, bind at 1.
  rewrite run_sensors_run.
  destruct (sensors_cmd w) as [|c e|out|e]; [| | |discriminate].
  - injection H as <- <-. exists 1. split; [auto|].
    unfold bind, ret, print_stderr. rewrite send_notification_run. reflexivity.
  - injection H as <- <-. exists 1. split; [auto|].
    unfold bind, ret, print_stderr. rewrite send_notification_run. reflexivity.
  - cbv beta iota delta [ret].
    destruct (parse_cpu_temperatures out); [|discriminate].
    injection H as <- <-. exists 2. split; [auto|].
    unfold bind, ret, print_stderr. rewrite send_notification_run. reflexivity.
Qed.



(** * What can go wrong in main *)







(** * The parser on a labelled line *)

Lemma span_digits_run ds r :
  Forall (fun c => is_digit c = true) ds -> digits_end r ->
  span_digits (ds ++ r) = (ds, r).
Proof.
  intros Hd Hr. induction Hd as [|c ds Hc _ IH]; cbn [app span_digits].
  - destruct r as [|c r]; [reflexivity|]. cbn [span_digits digits_end] in *.
    now rewrite Hr.
  - now rewrite Hc, IH.
Qed.

Lemma decimal_from_run ds : forall acc r,
  Forall (fun c => is_digit c = true) ds -> digits_end r ->
  decimal_from acc (ds ++ r) = decimal_from acc ds.
Proof.
  induction ds as [|c ds IH]; intros acc r Hd Hr; cbn [app decimal_from].
  - destruct r as [|c r]; [reflexivity|]. cbn [decimal_from digits_end] in *.
    unfold is_digit in Hr. now destruct (digit_value c).
  - inversion Hd; subst. destruct (digit_value c); auto.
Qed.

(** The longest run of digits is tried first: when the rest of the
    pattern matches after it, that is the match. *)
Lemma digits_plus_longest {A} ds r (k : str -> str -> option A) a :
  ds <> [] ->
  Forall (fun c => is_digit c = true) ds -> digits_end r ->
  k ds r = Some a ->
  digits_plus (ds ++ r) k = Some a.
Proof.
  intros Hne Hd. revert k. induction Hd as [|c ds Hc Hd IH]; intros k Hr Hk.
  - congruence.
  - cbn [app digits_plus]. rewrite Hc. destruct ds as [|c' ds'].
    + cbn [app]. destruct r as [|x r]; cbn [digits_plus].
      * exact Hk.
      * cbn [digits_end] in Hr. rewrite Hr. exact Hk.
    + rewrite (IH ltac:(discriminate) (fun d r' => k (c :: d) r') Hr Hk).
      reflexivity.
Qed.

Lemma startswith_app p s : startswith p (p ++ s) = true.
Proof. induction p; simpl; [|rewrite Z.eqb_refl]; auto. Qed.

Lemma match_at_number int_part frac_part rest :
  int_part <> [] -> frac_part <> [] ->
  Forall (fun c => is_digit c = true) int_part ->
  Forall (fun c => is_digit c = true) frac_part ->
  match_at (43 :: int_part ++ 46 :: frac_part ++ PATTERN_TAIL ++ rest)
  = Some (int_part ++ 46 :: frac_part).
Proof.
  intros Hi Hf Di Df. unfold match_at. simpl (43 =? 43). cbv beta iota.
  apply digits_plus_longest.
  - exact Hi.
  - exact Di.
  - reflexivity.
  - simpl (46 =? 46). cbv beta iota zeta.
    rewrite (digits_plus_longest frac_part (PATTERN_TAIL ++ rest) _
               (int_part ++ 46 :: frac_part)).
    + reflexivity.
    + exact Hf.
    + exact Df.
    + reflexivity.
    + unfold tail_here. now rewrite startswith_app.
Qed.

Lemma re_search_skip pre s :
  Forall (fun c => c <> 43) pre ->
  re_search (pre ++ s) = re_search s.
Proof.
  induction 1 as [|c pre Hc _ IH]; [reflexivity|].
  cbn [app re_search]. unfold match_at at 1.
  apply Z.eqb_neq in Hc. now rewrite Hc.
Qed.

Lemma re_search_found s g : match_at s = Some g -> re_search s = Some g.
Proof. intros H. destruct s; cbn [re_search]; now rewrite H. Qed.

Lemma py_float_decimal int_part frac_part :
  int_part <> [] -> frac_part <> [] ->
  Forall (fun c => is_digit c = true) int_part ->
  Forall (fun c => is_digit c = true) frac_part ->
  py_float (int_part ++ 46 :: frac_part) = Ok (decimal_float int_part frac_part).
Proof.
  intros Hi Hf Di Df. unfold py_float.
  rewrite (span_digits_run int_part (46 :: frac_part)) by (auto; reflexivity).
  destruct int_part as [|c ip]; [congruence|].
  pose proof (span_digits_run frac_part [] Df I) as E.
  rewrite app_nil_r in E. rewrite E.
  destruct frac_part as [|c' fp]; [congruence|]. reflexivity.
Qed.

(** X18. The parser does what it is there for, on text as the pattern wants
    it: when the first line with the label has, at its first plus sign, a
    run of digits, a full stop, a second run of digits and the pattern's
    tail, the result is that decimal number, rounded to the nearest
    float, and nothing else; whatever the line goes on with (the high and
    critical marks), and whatever the other lines hold. *)
Theorem parse_labelled_line
    (out : str) (before after : list str) (pre int_part frac_part rest : str) :
  let line := pre ++ 43 :: int_part ++ 46 :: frac_part ++ PATTERN_TAIL ++ rest in
  splitlines out = before ++ line :: after ->
  Forall (fun l => contains PACKAGE_LABEL l = false) before ->
  contains PACKAGE_LABEL line = true ->
  Forall (fun c => c <> 43) pre ->
  int_part <> [] -> frac_part <> [] ->
  Forall (fun c => is_digit c = true) int_part ->
  Forall (fun c => is_digit c = true) frac_part ->
  parse_cpu_temperatures out = [decimal_float int_part frac_part].
Proof.
  intros line Hsplit Hbefore Hlabel Hpre Hi Hf Di Df.
  unfold parse_cpu_temperatures.
  rewrite Hsplit, scan_lines_skip by assumption.
  simpl. rewrite Hlabel. unfold line.
  rewrite re_search_skip by assumption.
  rewrite (re_search_found _ _ (match_at_number _ _ rest Hi Hf Di Df)).
  now rewrite py_float_decimal.
Qed.

(** The package line between two other lines: 75.0, not the high mark
    of 90.0 nor the core's 41.0. *)
Lemma parse_labelled_line_example :
  parse_cpu_temperatures
    (lit "Adapter: ISA adapter" ++ [10] ++ package_line_c2 ++ [10]
       ++ lit "Core 0:  +41.0" ++ [194; DEGREE] ++ lit "C")
  = [round_int 75].
Proof.
  refine (parse_labelled_line _ [lit "Adapter: ISA adapter"]
            [lit "Core 0:  +41.0" ++ [194; DEGREE] ++ lit "C"]
            (lit "Package id 0: ") (lit "75") (lit "0")
            (lit " (high = +90.0" ++ [194; DEGREE] ++ lit "C, crit = +100.0"
               ++ [194; DEGREE] ++ lit "C)")
            _ _ _ _ _ _ _ _).
  - vm_compute. reflexivity.
  - repeat constructor.
  - vm_compute. reflexivity.
  - repeat constructor; discriminate.
  - discriminate.
  - discriminate.
  - repeat constructor.
  - repeat constructor.
Defined.

(** * A whole run after a reading *)

Lemma main_steps_heap w out temp rest :
  sensors_cmd w = CommandPrints out ->
  parse_cpu_temperatures out = temp :: rest ->
  exists history h3,
    deref history (set_heap h3 w) = new_history w temp /\
    main w = finish temp history (set_heap h3 w).
Proof.
  intros Hs Hp.
  pose (full := list_in (fs_lookup HISTORY_FILE (files w))
                  ++ [observation (clock w) temp (float_gt temp THRESHOLD)]).
  pose (w2 := set_heap (heap w ++ [full]) w).
  assert (D2 : deref (length (heap w)) w2 = full) by apply deref_new_list.
  assert (Hmain : main w =
    (history <- (if Z.of_nat (length full) >? WINDOW_SIZE
                 then list_slice_from (length (heap w)) (- WINDOW_SIZE)
                 else ret (length (heap w))) ;;
     finish temp history) w2).
  { unfold main, bind at 1, try_except, bind at 1.
    rewrite run_sensors_run, Hs. cbv beta iota delta [ret]. rewrite Hp.
    cbv beta iota zeta.
    unfold bind at 1. rewrite load_history_run.
    unfold bind at 1, utcnow_isoformat. cbn [clock set_heap].
    unfold bind at 1, list_append. rewrite deref_new_list.
    cbn [heap set_heap]. rewrite replace_nth_last.
    unfold bind at 1, len.
    change (set_heap _ (set_heap _ w)) with w2.
    rewrite D2. reflexivity. }
  rewrite Hmain. unfold bind at 1, new_history. fold full.
  rewrite <- recent_slice by reflexivity.
  destruct (_ >? _).
  - unfold list_slice_from, bind at 1, read_list, new_list. rewrite D2.
    exists (length (heap w2)), (heap w2 ++ [slice_from (- WINDOW_SIZE) full]).
    split; [apply (deref_new_list w2)|reflexivity].
  - exists (length (heap w)), (heap w ++ [full]). split; [exact D2|reflexivity].
Qed.


Lemma notify_effect_setting n w : same_setting w (notify_effect n w).
Proof.
  unfold notify_effect.
  destruct (ntfy_topic w) as [[|c t]|] eqn:E; [|destruct (post_failure _ _)|];
    repeat split; cbn; auto.
Qed.

(** A run that has read [temp]: the surroundings stay, the file is
    written (or not) by [save_history] alone, and the rest follows the
    verdict on the new history. *)
Lemma main_after_reading w out temp rest :
  sensors_cmd w = CommandPrints out ->
  parse_cpu_temperatures out = temp :: rest ->
  let kept := new_history w temp in
  let window := slice_from (- WINDOW_SIZE) kept in
  let w' := snd (main w) in
  same_setting w w' /\
  files w' = files_after (disk w) HISTORY_FILE kept (files w) /\
  match verdict kept WINDOW_SIZE THRESHOLD with
  | Ok false =>
      fst (main w) = Ok 0 /\ posted w' = posted w /\
      stdout w' = stdout w ++ [status_of temp]
  | Ok true =>
      fst (main w) = Ok 0 /\
      stdout w' = stdout w ++ [status_of temp; AlertConditionMet WINDOW_SIZE] /\
      exists avg temps,
        numeric_temperatures window = Ok temps /\ mean temps = Ok avg /\
        float_gt avg THRESHOLD = true /\
        (topic_set w -> network_up w = true ->
         posted w' = posted w ++ [alert avg (Z.of_nat (length window))])
  | Raise e =>
      fst (main w) = Raise e /\ posted w' = posted w /\ stdout w' = stdout w
  end.
Proof.
  intros Hs Hp kept window w'. subst w'.
  destruct (main_steps_heap w out temp rest Hs Hp) as (history & h3 & D3 & ->).
  fold kept in D3. rewrite finish_run, D3. cbv zeta.
  set (w4 := save_effect HISTORY_FILE kept (set_heap h3 w)).
  assert (D4 : deref history w4 = kept).
  { rewrite <- D3. unfold w4, save_effect, deref. cbn. destruct (disk w); reflexivity. }
  assert (S4 : same_setting w w4)
    by (unfold w4, save_effect; cbn; destruct (disk w); repeat split).
  assert (F4 : files w4 = files_after (disk w) HISTORY_FILE kept (files w))
    by (unfold w4, save_effect, files_after; cbn; destruct (disk w); reflexivity).
  assert (P4 : posted w4 = posted w)
    by (unfold w4, save_effect; cbn; destruct (disk w); reflexivity).
  assert (O4 : stdout w4 = stdout w)
    by (unfold w4, save_effect; cbn; destruct (disk w); reflexivity).
  pose proof (check_and_alert_verdict history WINDOW_SIZE THRESHOLD w4) as V.
  rewrite D4 in V.
  pose proof (check_and_alert_cases history WINDOW_SIZE THRESHOLD w4) as Cs.
  cbv zeta in Cs. rewrite D4 in Cs. fold window in Cs.
  destruct Cs
    as [(Hno & h5 & Hw) | (avg & h5 & temps & Hyes & Ht & _ & Hm & Hgt & Hw)].
  - destruct (check_and_alert history WINDOW_SIZE THRESHOLD w4) as [r w5].
    cbn [fst snd] in *. subst w5. rewrite <- V.
    destruct S4 as (A & B & C & D & E).
    destruct r as [[|]|e]; [now destruct Hno| |]; cbn;
      (split; [repeat split; assumption|]); (split; [assumption|]);
      repeat split; try assumption.
    unfold status_of. now rewrite O4.
  - destruct (check_and_alert history WINDOW_SIZE THRESHOLD w4) as [r w5].
    cbn [fst snd] in *. subst w5. rewrite <- V, Hyes.
    destruct S4 as (A & B & C & D & E).
    destruct (notify_effect_quiet (alert avg (Z.of_nat (length window)))
                (set_heap h5 w4)) as (F & _ & O & _).
    split.
    { destruct (notify_effect_setting (alert avg (Z.of_nat (length window)))
                  (set_heap h5 w4)) as (A' & B' & C' & D' & E').
      simpl in A', B', C', D', E'.
      repeat split; simpl; congruence. }
    split; [cbn; rewrite F; exact F4|].
    split; [reflexivity|].
    split; [cbn; rewrite O; cbn; rewrite O4; reflexivity|].
    exists avg, temps. repeat split; try assumption.
    intros Htop Hnet. cbn.
    rewrite notify_effect_posts.
    + cbn. now rewrite P4.
    + destruct Htop as (c & t & Htop). exists c, t. cbn. now rewrite C.
    + cbn. now rewrite D.
    + reflexivity.
Qed.




(** X17. With fewer than two entries on file there is no alert, whatever the
    reading and whatever those entries are (they are not looked at):
    [main] returns 0, posts nothing and prints the status line only. *)
Theorem main_quiet_until_window_full
    (w : world) (out : str) (temp : float) (rest : list float)
    (old : list pyval) :
  sensors_cmd w = CommandPrints out ->
  parse_cpu_temperatures out = temp :: rest ->
  loaded HISTORY_FILE w = Ok old ->
  (length old < 2)%nat ->
  let w' := snd (main w) in
  fst (main w) = Ok 0 /\ posted w' = posted w /\
  stdout w' = stdout w ++ [status_of temp].
Proof.
  intros Hs Hp Hl Hlen w'. subst w'.
  rewrite loaded_run in Hl. injection Hl as Hl.
  pose proof (main_after_reading w out temp rest Hs Hp) as H. cbv zeta in H.
  unfold new_history in H. rewrite Hl in H.
  set (kept := recent _ _) in *.
  assert (L : (length kept < 3)%nat).
  { unfold kept, recent. rewrite length_skipn, length_app. simpl. lia. }
  assert (V : verdict kept WINDOW_SIZE THRESHOLD = Ok false).
  { unfold verdict.
    replace (_ <? _) with true
      by (symmetry; apply Z.ltb_lt; unfold WINDOW_SIZE; lia).
    reflexivity. }
  rewrite V in H. apply H.
Qed.

(** A reading of 95 degrees over a history of one string: no alert, no
    exception. *)
Lemma main_quiet_until_window_full_example :
  let w := machine (CommandPrints hot_output)
             [(HISTORY_FILE, Json (PList [PStr (lit "junk")]))] [] in
  fst (main w) = Ok 0 /\ posted (snd (main w)) = [] /\
  stdout (snd (main w)) = [status_of (round_int 95)].
Proof.
  intros w.
  apply (main_quiet_until_window_full w hot_output (round_int 95) []
           [PStr (lit "junk")]);
    vm_compute; reflexivity.
Defined.

(** * Three runs from an empty history *)




(** * Notifications and the exit status *)

(** X19. Whether the topic is set and whether the network is up has no say in
    what [main] returns, nor in what it saves: a notification that cannot
    be sent, be it the alert or the report of an error, never changes the
    exit status or the history. *)
Theorem notification_failure_is_not_fatal
    (w : world) (topic : option str) (up : bool) :
  fst (main (with_ntfy topic up w)) = fst (main w) /\
  exit_status (fst (main (with_ntfy topic up w))) = exit_status (fst (main w)) /\
  files (snd (main (with_ntfy topic up w))) = files (snd (main w)).
Proof.
  assert (H1 : fst (main (with_ntfy topic up w)) = fst (main w)).
  { destruct (sensors_cmd w) as [|c e|out|e] eqn:Hs.
    - rewrite !main_sensors_fail; simpl; auto.
    - rewrite !main_sensors_fail; simpl; eauto.
    - destruct (parse_cpu_temperatures out) as [|temp rest] eqn:Hp.
      + rewrite (main_no_reading w out), (main_no_reading (with_ntfy topic up w) out);
          auto.
      + destruct (main_reading w out temp rest Hs Hp) as (-> & _).
        destruct (main_reading (with_ntfy topic up w) out temp rest Hs Hp)
          as (-> & _).
        reflexivity.
    - destruct (main_sensors_raise w e Hs) as (w1 & -> & _).
      destruct (main_sensors_raise (with_ntfy topic up w) e Hs) as (w2 & -> & _).
      reflexivity. }
  assert (H2 : files (snd (main (with_ntfy topic up w))) = files (snd (main w))).
  { destruct (failure_of w) as [[d m]|] eqn:Hf.
    - assert (Hf' : failure_of (with_ntfy topic up w) = Some (d, m)) by exact Hf.
      destruct (main_failure_run w d m Hf) as (code & _ & ->).
      destruct (main_failure_run _ d m Hf') as (code' & _ & ->).
      cbn [snd].
      destruct (notify_effect_quiet
                  (notice m (lit "Monitoring Script Error") (lit "high") (lit "x"))
                  (set_stderr (stderr w ++ [d]) w)) as (F & _).
      destruct (notify_effect_quiet
                  (notice m (lit "Monitoring Script Error") (lit "high") (lit "x"))
                  (set_stderr (stderr (with_ntfy topic up w) ++ [d])
                     (with_ntfy topic up w))) as (F' & _).
      rewrite F, F'. reflexivity.
    - unfold failure_of in Hf.
      destruct (sensors_cmd w) as [|c e|out|e] eqn:Hs; try discriminate.
      + destruct (parse_cpu_temperatures out) as [|temp rest] eqn:Hp; [discriminate|].
        destruct (main_reading w out temp rest Hs Hp) as (_ & _ & ->).
        destruct (main_reading (with_ntfy topic up w) out temp rest Hs Hp)
          as (_ & _ & ->).
        reflexivity.
      + destruct (main_sensors_raise w e Hs) as (w1 & -> & F1).
        destruct (main_sensors_raise (with_ntfy topic up w) e Hs) as (w2 & -> & F2).
        cbn [snd]. rewrite F1, F2. reflexivity. }
  rewrite H1. auto.
Qed.

(** * Sending a notification *)

(** ** Header values *)









(** * What an alert carries *)



(** * Windows of dicts, of floats, of integers *)



(** ** Integers that a float holds exactly *)





(** ** The mean of floats and the mean of integers *)



Lemma sum_from_ints zs : forall acc,
  sum_from (PInt acc) (map PInt zs) = Ok (PInt (fold_left Z.add zs acc)).
Proof.
  induction zs as [|z zs IH]; intros acc; [reflexivity|]. simpl. apply IH.
Qed.

Lemma mean_ints zs :
  zs <> [] ->
  mean (map PInt zs) =
  if is_infinite (int_mean zs) then Raise OverflowError else Ok (int_mean zs).
Proof.
  intros Hne. unfold mean, int_mean, py_sum.
  rewrite sum_from_ints, length_map. cbn [rbind py_truediv as_int].
  replace (Z.of_nat (length zs) =? 0) with false; [reflexivity|].
  symmetry. apply Z.eqb_neq. destruct zs; [congruence | simpl length; lia].
Qed.

Lemma Forall2_map_temperatures {A} (inj : A -> pyval) window (ts : list A) :
  (forall t, is_int_or_float (inj t) = true) ->
  Forall2 (fun e t => temperature_of e = Some (inj t)) window ts ->
  Forall2 has_temperature window (map inj ts).
Proof.
  intros Hnum. induction 1; constructor; auto. split; auto.
Qed.



(** X22. A window of integer temperatures: the sum is exact and the quotient
    by the number of entries is rounded once.  [check_and_alert] raises
    [OverflowError] exactly when that quotient is too large for a float,
    and otherwise returns [True] exactly when it is above the threshold. *)
Theorem check_and_alert_int_window
    (w : world) (history : ref) (older window : list pyval) (zs : list Z)
    (threshold : float) :
  deref history w = older ++ window ->
  window <> [] ->
  Forall2 (fun e z => temperature_of e = Some (PInt z)) window zs ->
  fst (check_and_alert history (Z.of_nat (length window)) threshold w)
  = if is_infinite (int_mean zs) then Raise OverflowError
    else Ok (float_gt (int_mean zs) threshold).
Proof.
  intros Hh Hne Hw.
  assert (Hz : zs <> [])
    by (intros ->; inversion Hw; subst; congruence).
  pose proof (Forall2_map_temperatures PInt window zs (fun _ => eq_refl) Hw) as Hw'.
  rewrite check_and_alert_verdict, Hh, verdict_window by assumption.
  unfold verdict.
  pose proof (slice_from_window [] window Hne) as E.
  change ([] ++ window) with window in E. rewrite E.
  rewrite Z.ltb_irrefl, (numeric_temperatures_all _ _ Hw').
  rewrite <- (Forall2_length Hw'), Z.ltb_irrefl, (mean_ints zs Hz).
  destruct (is_infinite (int_mean zs)); reflexivity.
Qed.

(** Temperatures of 88, 92 and 91 as integers give the same mean as the
    floats, 271/3; with 10^400 among them the quotient is too large. *)
Lemma check_and_alert_int_window_example :
  let entry z := PDict [(TEMPERATURE, PInt z)] in
  fst (check_and_alert 0%nat 3 THRESHOLD
         (machine CommandMissing [] [[entry 88; entry 92; entry 91]]))
  = Ok (float_gt (round_quotient 271 3) THRESHOLD) /\
  fst (check_and_alert 0%nat 3 THRESHOLD
         (machine CommandMissing [] [[entry (10 ^ 400); entry 0; entry 0]]))
  = Raise OverflowError.
Proof.
  intros entry. split.
  - refine (check_and_alert_int_window
              (machine CommandMissing [] [[entry 88; entry 92; entry 91]])
              0%nat [] [entry 88; entry 92; entry 91] [88; 92; 91] THRESHOLD
              eq_refl _ _).
    + discriminate.
    + repeat constructor.
  - pose proof (check_and_alert_int_window
                  (machine CommandMissing [] [[entry (10 ^ 400); entry 0; entry 0]])
                  0%nat [] [entry (10 ^ 400); entry 0; entry 0] [10 ^ 400; 0; 0]
                  THRESHOLD eq_refl) as H.
    change (Z.of_nat (length [entry (10 ^ 400); entry 0; entry 0])) with 3 in H.
    rewrite H.
    + vm_compute. reflexivity.
    + discriminate.
    + repeat constructor.
Defined.
